(** * A shallow embedding of the imageboard application [app.py]

    The application is a Flask program over three SQLAlchemy tables
    (boards, threads, posts) and one upload directory.  Tables are lists of
    rows in insertion order, request handlers are computations in a small
    monad that threads the world (database, upload directory, clock and
    uuid counters) and can stop early with an HTTP response. *)

From Stdlib Require Import ZArith List String Ascii Bool Lia.
From Stdlib Require Import Permutation Sorted.
Import ListNotations.

Local Open Scope string_scope.
Local Open Scope list_scope.
Local Open Scope Z_scope.

Set Implicit Arguments.

(** ** Python strings *)

Module Py.

(** Truth value of a [str]: the empty string is falsy. *)
Definition truthy (s : string) : bool := negb (s =? "")%string.

(** Truth value of an optional [str] ([None] is falsy). *)
Definition truthy_opt (o : option string) : bool :=
  match o with
  | Some s => truthy s
  | None => false
  end.

(** [x or d] on strings. *)
Definition or_else (s d : string) : string := if truthy s then s else d.

(** [c in s] for a one-character [c]. *)
Fixpoint contains (c : ascii) (s : string) : bool :=
  match s with
  | EmptyString => false
  | String d r => Ascii.eqb c d || contains c r
  end.

(** [str.lower] on the characters [A]..[Z]; every other character is
    kept. *)
Definition lower_char (c : ascii) : ascii :=
  let n := nat_of_ascii c in
  if (Nat.leb 65 n && Nat.leb n 90)%bool then ascii_of_nat (n + 32) else c.

Fixpoint lower (s : string) : string :=
  match s with
  | EmptyString => EmptyString
  | String c r => String (lower_char c) (lower r)
  end.

(** [s.rsplit('.', 1)]: [Some (before, after)] around the last dot, or
    [None] when [s] has no dot (the split then has the single element
    [s]). *)
Fixpoint rsplit_dot (s : string) : option (string * string) :=
  match s with
  | EmptyString => None
  | String c r =>
      match rsplit_dot r with
      | Some (a, b) => Some (String c a, b)
      | None => if Ascii.eqb c "." then Some (EmptyString, r) else None
      end
  end.

(** [s.rsplit('.', 1)[1]]; [None] is the [IndexError] of a split with
    one element. *)
Definition rsplit_dot_1 (s : string) : option string :=
  option_map snd (rsplit_dot s).

(** [s[:n]] *)
Definition prefix (n : nat) (s : string) : string := substring 0 n s.

End Py.

(** ** Database models *)

Module Board.
Record t := mk
  { id : Z;
    name : string;
    title : string;
    description : string }.
End Board.

Module Thread.
Record t := mk
  { id : Z;
    board_id : Z;
    subject : string;
    created_at : Z;
    bumped_at : Z;
    is_pinned : bool;
    is_locked : bool }.

Definition set_bumped_at (v : Z) (th : t) : t :=
  mk (id th) (board_id th) (subject th) (created_at th) v
     (is_pinned th) (is_locked th).
End Thread.

Module Post.
Record t := mk
  { id : Z;
    thread_id : Z;
    name : string;
    email : string;
    subject : string;
    comment : string;
    filename : option string;
    original_filename : option string;
    file_size : option Z;
    image_width : option Z;
    image_height : option Z;
    thumbnail : option string;
    created_at : Z;
    post_number : Z }.
End Post.

(** ** Requests and responses *)

(** An uploaded file of [request.files]: the client's file name and the
    bytes. *)
Module FileStorage.
Record t := mk
  { filename : string;
    stream : list Byte.byte }.
End FileStorage.

(** The request of [POST /<board_name>/post]: its form and the
    [Content-Length] of its body.  A text field is [None] when the form
    does not carry it.  [thread_id] is the field as the database reads it,
    an integer key; [None] stands for a missing or empty field, the two
    values for which [not thread_id] holds.  [thread_id_is_int] tells
    whether Python's [int] accepts the text of the field, and then [int]
    gives the key: so it is for [7], while the database reads [7.0] as the
    key 7 and [int] refuses it.  The file is part of the body, so that in
    the request of a client [content_length] is above the number of its
    bytes. *)
Module PostForm.
Record t := mk
  { name : option string;
    email : option string;
    subject : option string;
    comment : option string;
    thread_id : option Z;
    file : option FileStorage.t;
    content_length : Z;
    thread_id_is_int : bool }.
End PostForm.

(** The form of [POST /admin/create_board]: three text fields, in a body
    that is taken to be within [MAX_CONTENT_LENGTH]. *)
Module BoardForm.
Record t := mk
  { name : option string;
    title : option string;
    description : option string }.
End BoardForm.

Inductive Method := GET | POST.

(** Targets of [url_for]. *)
Inductive Endpoint :=
| board_view_url (board_name : string)
| thread_view_url (board_name : string) (thread_id : Z)
| create_board_url.

(** One entry of [threads.items] as [board_view] hands it to the template:
    the thread with its [preview_posts] and [total_posts]. *)
Module ThreadItem.
Record t := mk
  { thread : Thread.t;
    preview_posts : list Post.t;
    total_posts : nat }.
End ThreadItem.

(** [render_template] with the values the template receives. *)
Inductive Page :=
| board_html (board : Board.t) (threads : list ThreadItem.t)
| create_board_html.

(** What a request ends with: a redirect (after an optional [flash]), a
    rendered page, an HTTP error ([abort(code)], or the 413 of a body
    above [MAX_CONTENT_LENGTH]), or an exception that no handler catches:
    the [IndexError] that [generate_filename] can raise, the [ValueError]
    of [url_for] on a thread id that is no integer numeral, the
    [OverflowError] of a query whose [OFFSET] is not a 64-bit integer. *)
Inductive Response :=
| Redirect (flashed : option string) (location : Endpoint)
| Render (page : Page)
| Abort (code : Z)
| IndexError
| ValueError
| OverflowError.

(** ** The world *)

(** What the handlers take from outside the program: the clock behind
    [datetime.utcnow] and the generator behind [uuid.uuid4], each as the
    sequence of values its successive calls return, and werkzeug's
    [secure_filename]. *)
Record Env := mkEnv
  { utcnow : nat -> Z;
    uuid4 : nat -> string;
    secure_filename : string -> string }.

Record World := mkWorld
  { boards : list Board.t;
    threads : list Thread.t;
    posts : list Post.t;
    uploads : list (string * list Byte.byte);
    clock_reads : nat;
    uuid_reads : nat }.

(** ** Handler monad: world passing with early exit *)

Inductive Step (A : Type) :=
| Value (a : A)
| Exit (r : Response).

Arguments Exit {A} r.

Definition Handler (A : Type) := World -> Step A * World.

Definition ret {A} (a : A) : Handler A := fun w => (Value a, w).

Definition bind {A B} (m : Handler A) (k : A -> Handler B) : Handler B :=
  fun w =>
    match m w with
    | (Value a, w') => k a w'
    | (Exit r, w') => (Exit r, w')
    end.

(** [return response] of a view function, and an exception that reaches
    Flask, both stop the handler. *)
Definition leave {A} (r : Response) : Handler A := fun w => (Exit r, w).

Definition get_world : Handler World := fun w => (Value w, w).

Definition modify (f : World -> World) : Handler unit :=
  fun w => (Value tt, f w).

Declare Scope handler_scope.
Delimit Scope handler_scope with handler.

Notation "x <- m ;; k" := (bind m (fun x => k))
  (at level 61, m at next level, right associativity) : handler_scope.
Notation "m ;; k" := (bind m (fun _ => k))
  (at level 61, right associativity) : handler_scope.

(** The response of a view function. *)
Definition run (h : Handler Response) (w : World) : Response * World :=
  match h w with
  | (Value r, w') => (r, w')
  | (Exit r, w') => (r, w')
  end.

(** ** Queries *)

(** [query.order_by(...)]: insertion sort under [le a b], "[a] may come
    before [b]".  Rows with equal keys come out in the order of the table;
    the database promises no order among them, so what is proved of the
    place of a row in a result is proved for rows with distinct keys, for
    which there is one ordered result ([order_by_determined]). *)
Fixpoint insert_by {A} (le : A -> A -> bool) (x : A) (l : list A) : list A :=
  match l with
  | [] => [x]
  | y :: r => if le x y then x :: y :: r else y :: insert_by le x r
  end.

Fixpoint order_by {A} (le : A -> A -> bool) (l : list A) : list A :=
  match l with
  | [] => []
  | x :: r => insert_by le x (order_by le r)
  end.

(** [query.first()] *)
Definition first {A} (l : list A) : option A := hd_error l.

(** [.paginate(page=page, per_page=per_page, error_out=False)]: a page
    below 1 is read as page 1; the items are those at positions
    [(page-1)*per_page, page*per_page), when the query that fetches them
    can be run (see [board_view]). *)
Definition paginate {A} (page : Z) (per_page : nat) (l : list A) : list A :=
  let page := if page <? 1 then 1 else page in
  firstn per_page (skipn (Z.to_nat (page - 1) * per_page) l).

(** The [OFFSET] that the query of [paginate] binds. *)
Definition page_offset (page : Z) (per_page : nat) : Z :=
  ((if page <? 1 then 1 else page) - 1) * Z.of_nat per_page.

(** The largest integer that the database driver binds to a query. *)
Definition MAX_BOUND_INTEGER : Z := 2 ^ 63 - 1.

(** [Board.query.filter_by(name=board_name)] *)
Definition boards_by_name (board_name : string) (w : World) : list Board.t :=
  filter (fun b => Board.name b =? board_name)%string (boards w).

(** [Thread.query.filter_by(board_id=board_id)] *)
Definition threads_by_board (board_id : Z) (w : World) : list Thread.t :=
  filter (fun th => Thread.board_id th =? board_id) (threads w).

(** [Thread.query.get(thread_id)] *)
Definition thread_get (thread_id : Z) (w : World) : option Thread.t :=
  find (fun th => Thread.id th =? thread_id) (threads w).

(** [Post.query.filter_by(thread_id=thread_id)] *)
Definition posts_by_thread (thread_id : Z) (w : World) : list Post.t :=
  filter (fun p => Post.thread_id p =? thread_id) (posts w).

(** [Post.post_number.desc()] *)
Definition post_number_desc (a b : Post.t) : bool :=
  (Post.post_number b <=? Post.post_number a).

(** [Post.created_at.asc()] *)
Definition post_created_asc (a b : Post.t) : bool :=
  (Post.created_at a <=? Post.created_at b).

(** [Thread.is_pinned.desc(), Thread.bumped_at.desc()] *)
Definition pinned_then_bumped_desc (a b : Thread.t) : bool :=
  if Bool.eqb (Thread.is_pinned a) (Thread.is_pinned b)
  then (Thread.bumped_at b <=? Thread.bumped_at a)
  else Thread.is_pinned a.

(** The key of a new row: one more than the largest key of the table, 1
    for the first row. *)
Definition next_id (ids : list Z) : Z := 1 + fold_right Z.max 0 ids.

(** ** Configuration *)

Definition MAX_CONTENT_LENGTH : Z := 5 * 1024 * 1024.

(** ** Helper functions of [app.py] *)

Definition ALLOWED_EXTENSIONS : list string :=
  ["png"; "jpg"; "jpeg"; "gif"; "webp"; "webm"; "mp4"].

Definition allowed_file (filename : string) : bool :=
  Py.contains "." filename &&
  match Py.rsplit_dot_1 filename with
  | Some ext => existsb (String.eqb (Py.lower ext)) ALLOWED_EXTENSIONS
  | None => false
  end.

Definition UPLOAD_FOLDER : string := "static/uploads".

(** [os.path.join(UPLOAD_FOLDER, filename)] *)
Definition path_join (dir name : string) : string :=
  (dir ++ "/" ++ name)%string.

(** [file.save(path)]: the file at [path] is created or replaced. *)
Definition save (path : string) (bytes : list Byte.byte)
    (dir : list (string * list Byte.byte)) : list (string * list Byte.byte) :=
  (path, bytes) :: filter (fun e => negb (fst e =? path)%string) dir.

Definition get_next_post_number (thread_id : Z) (w : World) : Z :=
  match first (order_by post_number_desc (posts_by_thread thread_id w)) with
  | Some last_post => Post.post_number last_post + 1
  | None => 1
  end.

(** ** Writes *)

Definition set_clock_reads (n : nat) (w : World) : World :=
  mkWorld (boards w) (threads w) (posts w) (uploads w) n (uuid_reads w).

Definition set_uuid_reads (n : nat) (w : World) : World :=
  mkWorld (boards w) (threads w) (posts w) (uploads w) (clock_reads w) n.

Definition set_uploads (u : list (string * list Byte.byte)) (w : World)
    : World :=
  mkWorld (boards w) (threads w) (posts w) u (clock_reads w) (uuid_reads w).

Definition set_boards (bs : list Board.t) (w : World) : World :=
  mkWorld bs (threads w) (posts w) (uploads w) (clock_reads w) (uuid_reads w).

Definition set_threads (ts : list Thread.t) (w : World) : World :=
  mkWorld (boards w) ts (posts w) (uploads w) (clock_reads w) (uuid_reads w).

Definition set_posts (ps : list Post.t) (w : World) : World :=
  mkWorld (boards w) (threads w) ps (uploads w) (clock_reads w) (uuid_reads w).

(** [thread.bumped_at = v] on the row with key [thread_id]. *)
Definition bump (thread_id v : Z) (ts : list Thread.t) : list Thread.t :=
  map (fun th => if Thread.id th =? thread_id
                 then Thread.set_bumped_at v th else th) ts.

(** ** The routes *)

Section Routes.

Variable E : Env.

Local Open Scope handler_scope.

(** [datetime.utcnow()] *)
Definition now : Handler Z :=
  fun w => (Value (utcnow E (clock_reads w)),
            set_clock_reads (S (clock_reads w)) w).

(** [str(uuid.uuid4())] *)
Definition new_uuid : Handler string :=
  fun w => (Value (uuid4 E (uuid_reads w)),
            set_uuid_reads (S (uuid_reads w)) w).

Definition generate_filename (original_filename : string)
    : Handler string :=
  match Py.rsplit_dot_1 original_filename with
  | None => leave IndexError
  | Some e =>
      let ext := Py.lower e in
      u <- new_uuid ;;
      let unique_id := Py.prefix 8 u in
      ret (unique_id ++ "." ++ ext)%string
  end.

(** [Board.query.filter_by(name=board_name).first_or_404()] *)
Definition board_or_404 (board_name : string) : Handler Board.t :=
  w <- get_world ;;
  match first (boards_by_name board_name w) with
  | Some board => ret board
  | None => leave (Abort 404)
  end.

(** [Thread.query.get_or_404(thread_id)] *)
Definition thread_or_404 (thread_id : Z) : Handler Thread.t :=
  w <- get_world ;;
  match thread_get thread_id w with
  | Some thread => ret thread
  | None => leave (Abort 404)
  end.

(** The first access to [request.form] reads the body: a request whose
    [Content-Length] is above [MAX_CONTENT_LENGTH] ends there with 413
    Request Entity Too Large. *)
Definition load_form (content_length : Z) : Handler unit :=
  if content_length >? MAX_CONTENT_LENGTH then leave (Abort 413) else ret tt.

(** [url_for('thread_view', board_name=board_name, thread_id=thread_id)]:
    the converter of [<int:thread_id>] applies [int] to the value it is
    given, which raises [ValueError] on a text that [int] refuses;
    [is_int] tells whether [int] accepts the value. *)
Definition url_for_thread_view (board_name : string) (thread_id : Z)
    (is_int : bool) : Handler Endpoint :=
  if is_int then ret (thread_view_url board_name thread_id)
  else leave ValueError.

(** [request.form.get(key, default)] *)
Definition form_get (field : option string) (default : string) : string :=
  match field with
  | Some v => v
  | None => default
  end.

(** The test [file and file.filename and allowed_file(file.filename)];
    a [FileStorage] is truthy when its file name is not empty. *)
Definition accepted (file : option FileStorage.t) : bool :=
  match file with
  | Some f =>
      Py.truthy (FileStorage.filename f) &&
      Py.truthy (FileStorage.filename f) &&
      allowed_file (FileStorage.filename f)
  | None => false
  end.

(** Lines 121-132 of [create_post]: the values of [filename],
    [original_filename] and [file_size] after the upload is handled. *)
Definition handle_upload (file : option FileStorage.t)
    : Handler (option string * option string * option Z) :=
  match file with
  | Some f =>
      if accepted file then
        let original_filename := secure_filename E (FileStorage.filename f) in
        filename <- generate_filename original_filename ;;
        let file_path := path_join UPLOAD_FOLDER filename in
        modify (fun w =>
          set_uploads (save file_path (FileStorage.stream f) (uploads w)) w) ;;
        let file_size := Z.of_nat (List.length (FileStorage.stream f)) in
        ret (Some filename, Some original_filename, Some file_size)
      else ret (None, None, None)
  | None => ret (None, None, None)
  end.

(** [db.session.add(thread); db.session.flush()]: the row is inserted
    and its key is returned. *)
Definition add_thread (board_id : Z) (subject : string)
    (created_at bumped_at : Z) : Handler Z :=
  w <- get_world ;;
  let id := next_id (map Thread.id (threads w)) in
  modify (set_threads
    (threads w ++
     [Thread.mk id board_id subject created_at bumped_at false false])) ;;
  ret id.

(** [db.session.add(post)] *)
Definition add_post (thread_id : Z) (name email subject comment : string)
    (filename original_filename : option string) (file_size : option Z)
    (post_number created_at : Z) : Handler unit :=
  w <- get_world ;;
  let id := next_id (map Post.id (posts w)) in
  modify (set_posts
    (posts w ++
     [Post.mk id thread_id name email subject comment
        filename original_filename file_size None None None
        created_at post_number])).

(** In the reply branch the variable [thread_id] keeps the text of the
    form; in the other it becomes the key of the new thread, an [int]. *)
Definition create_post (board_name : string) (form : PostForm.t)
    : Handler Response :=
  board <- board_or_404 board_name ;;
  load_form (PostForm.content_length form) ;;
  let name := form_get (PostForm.name form) "Anonymous" in
  let email := form_get (PostForm.email form) "" in
  let subject := form_get (PostForm.subject form) "" in
  let comment := form_get (PostForm.comment form) "" in
  let thread_id := PostForm.thread_id form in
  att <- handle_upload (PostForm.file form) ;;
  let '(filename, original_filename, file_size) := att in
  target <-
    match thread_id with
    | None =>
        if negb (Py.truthy subject) && negb (Py.truthy comment)
           && negb (Py.truthy_opt filename)
        then
          leave (Redirect (Some "Thread must have subject, comment, or image")
                   (board_view_url board_name))
        else
          created_at <- now ;;
          bumped_at <- now ;;
          thread_id <- add_thread (Board.id board)
                         (Py.or_else subject "No Subject")
                         created_at bumped_at ;;
          ret (thread_id, true, 1)
    | Some thread_id =>
        let is_int := PostForm.thread_id_is_int form in
        thread <- thread_or_404 thread_id ;;
        if Thread.is_locked thread then
          location <- url_for_thread_view board_name thread_id is_int ;;
          leave (Redirect (Some "Thread is locked") location)
        else
          w <- get_world ;;
          let post_number := get_next_post_number thread_id w in
          bumped_at <- now ;;
          modify (fun w =>
            set_threads (bump thread_id bumped_at (threads w)) w) ;;
          ret (thread_id, is_int, post_number)
    end ;;
  let '(thread_id, is_int, post_number) := target in
  created_at <- now ;;
  add_post thread_id name email subject comment
    filename original_filename file_size post_number created_at ;;
  location <- url_for_thread_view board_name thread_id is_int ;;
  ret (Redirect None location).

(** One element of the loop of [board_view]. *)
Definition thread_item (w : World) (thread : Thread.t) : ThreadItem.t :=
  ThreadItem.mk thread
    (firstn 5 (order_by post_created_asc
                 (posts_by_thread (Thread.id thread) w)))
    (List.length (posts_by_thread (Thread.id thread) w)).

(** The ordered query of [board_view], before pagination. *)
Definition board_listing (board_id : Z) (w : World) : list Thread.t :=
  order_by pinned_then_bumped_desc (threads_by_board board_id w).

(** [page] is [request.args.get('page', 1, type=int)], an integer of any
    size; the query of the page fails with [OverflowError] when its
    [OFFSET] is above the largest integer that can be bound. *)
Definition board_view (board_name : string) (page : Z) : Handler Response :=
  board <- board_or_404 board_name ;;
  w <- get_world ;;
  if page_offset page 10 >? MAX_BOUND_INTEGER then leave OverflowError
  else
    let items := paginate page 10 (board_listing (Board.id board) w) in
    ret (Render (board_html board (map (thread_item w) items))).

(** [request.form[key]]: a missing key is a 400 response. *)
Definition form_item (field : option string) : Handler string :=
  match field with
  | Some v => ret v
  | None => leave (Abort 400)
  end.

Definition create_board (method : Method) (form : BoardForm.t)
    : Handler Response :=
  match method with
  | POST =>
      name <- form_item (BoardForm.name form) ;;
      title <- form_item (BoardForm.title form) ;;
      let description := form_get (BoardForm.description form) "" in
      w <- get_world ;;
      match first (boards_by_name name w) with
      | Some _ =>
          leave (Redirect (Some "Board already exists") create_board_url)
      | None =>
          let id := next_id (map Board.id (boards w)) in
          modify (set_boards
            (boards w ++ [Board.mk id name title description])) ;;
          ret (Redirect (Some "Board created successfully")
                 (board_view_url name))
      end
  | GET => ret (Render create_board_html)
  end.

(** ** Histories *)

Inductive Request :=
| post_request (board_name : string) (form : PostForm.t)
| board_request (method : Method) (form : BoardForm.t)
| view_request (board_name : string) (page : Z).

Definition handle (rq : Request) : Handler Response :=
  match rq with
  | post_request board_name form => create_post board_name form
  | board_request method form => create_board method form
  | view_request board_name page => board_view board_name page
  end.

(** The worlds the application reaches from a database without threads
    and posts by serving requests one after the other. *)
Inductive reachable : World -> Prop :=
| reach_start w :
    threads w = [] -> posts w = [] -> reachable w
| reach_request w rq :
    reachable w -> reachable (snd (run (handle rq) w)).

End Routes.

(** ** Sample data *)

(** A clock that advances by one unit per read, a generator that always
    returns the same uuid, and the identity for [secure_filename] (what
    werkzeug returns on names made of letters, digits and inner dots). *)
Definition ticking_env : Env :=
  mkEnv (fun n => 1700000000 + Z.of_nat n)
        (fun _ => "3f2b8c1d-7a4e-4c1b-9d2f-0a1b2c3d4e5f")
        (fun s => s).

(** The same with a clock that stands still. *)
Definition frozen_env : Env :=
  mkEnv (fun _ => 1700000000)
        (fun _ => "3f2b8c1d-7a4e-4c1b-9d2f-0a1b2c3d4e5f")
        (fun s => s).

(** The database after the start-up code seeded the default boards. *)
Definition seeded : World :=
  mkWorld
    [ Board.mk 1 "b" "Random" "Random discussions";
      Board.mk 2 "g" "Technology" "Technology discussions";
      Board.mk 3 "v" "Video Games" "Video game discussions" ]
    [] [] [] 0 0.

(** Sample requests: a body of a few hundred bytes, the thread id, when
    there is one, sent as a decimal numeral. *)
Definition text_form (comment : string) (thread_id : option Z) : PostForm.t :=
  PostForm.mk None None None (Some comment) thread_id None 256 true.

Definition file_form (comment : string) (thread_id : option Z)
    (filename : string) : PostForm.t :=
  PostForm.mk None None None (Some comment) thread_id
    (Some (FileStorage.mk filename [Byte.x89; Byte.x50; Byte.x4e; Byte.x47]))
    512 true.

(** A reply "reply" whose body is announced one byte above the limit. *)
Definition oversized_form (thread_id : option Z) : PostForm.t :=
  PostForm.mk None None None (Some "reply") thread_id None
    (MAX_CONTENT_LENGTH + 1) true.

(** A reply "reply" whose thread id is sent as the text [1.0]: the database
    reads the key 1, [int] refuses the text. *)
Definition decimal_id_form : PostForm.t :=
  PostForm.mk None None None (Some "reply") (Some 1) None 256 false.

(** [seeded] after a first post "hello" on board [b]. *)
Definition one_thread : World :=
  snd (run (create_post ticking_env "b" (text_form "hello" None)) seeded).

(** The post that a reply "reply" to the thread of [one_thread] adds. *)
Definition the_reply : Post.t :=
  Post.mk 2 1 "Anonymous" "" "" "reply" None None None None None None
    1700000004 2.

(** [one_thread] with its thread locked (the flag is set outside the
    routes of [app.py]). *)
Definition locked_thread : World :=
  set_threads
    (map (fun th => Thread.mk (Thread.id th) (Thread.board_id th)
                      (Thread.subject th) (Thread.created_at th)
                      (Thread.bumped_at th) (Thread.is_pinned th) true)
         (threads one_thread))
    one_thread.

(** A first post "hello" whose name field is present and empty, as a
    browser sends a text input left blank. *)
Definition blank_name_form : PostForm.t :=
  PostForm.mk (Some "") None None (Some "hello") None None 256 true.


(** Board [b] with three threads: thread 2 is pinned and was bumped
    first, thread 3 was bumped last. *)
Definition three_threads : World :=
  mkWorld (boards seeded)
    [ Thread.mk 1 1 "first" 10 10 false false;
      Thread.mk 2 1 "rules" 5 5 true false;
      Thread.mk 3 1 "third" 20 20 false false ]
    [] [] 0 0.

(** ** Outcomes of the upload step *)

(** The upload step of [create_post] raises [IndexError]: the file is
    accepted under the client's name, but the name that [secure_filename]
    returns has no dot left for [generate_filename] to split at. *)
Definition upload_raises (E : Env) (file : option FileStorage.t) : bool :=
  match file with
  | Some f =>
      accepted file &&
      match Py.rsplit_dot_1 (secure_filename E (FileStorage.filename f)) with
      | Some _ => false
      | None => true
      end
  | None => false
  end.

(** The file name has no extension, or its extension, in lower case, is
    not in the allow-list. *)
Definition no_allowed_extension (filename : string) : Prop :=
  Py.contains "." filename = false \/
  exists ext, Py.rsplit_dot_1 filename = Some ext /\
              ~ In (Py.lower ext) ALLOWED_EXTENSIONS.

(** The body of the request is within the limit of the configuration. *)
Definition within_limit (form : PostForm.t) : Prop :=
  PostForm.content_length form <= MAX_CONTENT_LENGTH.

(** The same form without the file field, in a body of [content_length]
    bytes. *)
Definition without_file (form : PostForm.t) (content_length : Z)
    : PostForm.t :=
  PostForm.mk (PostForm.name form) (PostForm.email form)
    (PostForm.subject form) (PostForm.comment form)
    (PostForm.thread_id form) None
    content_length (PostForm.thread_id_is_int form).

(** What a post without a file needs to be accepted: the board exists,
    and either the post starts a thread and has a subject or a comment, or
    it replies, under a thread id sent as an integer numeral, to a thread
    that exists and is not locked. *)
Definition postable (board_name : string) (form : PostForm.t) (w : World)
    : Prop :=
  first (boards_by_name board_name w) <> None /\
  match PostForm.thread_id form with
  | None =>
      Py.truthy (form_get (PostForm.subject form) "") = true \/
      Py.truthy (form_get (PostForm.comment form) "") = true
  | Some tid =>
      PostForm.thread_id_is_int form = true /\
      exists th, thread_get tid w = Some th /\ Thread.is_locked th = false
  end.

(** The responses that the spec calls Locked and ValidationError. *)
Definition Locked (board_name : string) (thread_id : Z) : Response :=
  Redirect (Some "Thread is locked") (thread_view_url board_name thread_id).

Definition ValidationError (board_name : string) : Response :=
  Redirect (Some "Thread must have subject, comment, or image")
    (board_view_url board_name).

(** ** Order of a listing *)

(** In [l], no thread that is not pinned comes before a pinned one, and of
    two threads with the same pin status the one that comes first was
    bumped no earlier than the other. *)
Definition pinned_first_recent_first (l : list Thread.t) : Prop :=
  forall (i j : nat) (a b : Thread.t),
    (i < j)%nat -> nth_error l i = Some a -> nth_error l j = Some b ->
    (Thread.is_pinned b = true -> Thread.is_pinned a = true) /\
    (Thread.is_pinned a = Thread.is_pinned b ->
     Thread.bumped_at b <= Thread.bumped_at a).

(** ** Numbering of posts *)

(** The numbers of the posts of a thread, in the order of insertion. *)
Definition thread_numbers (tid : Z) (w : World) : list Z :=
  map Post.post_number (posts_by_thread tid w).

(** [1; 2; ...; n] *)
Definition count_from_1 (n : nat) : list Z := map Z.of_nat (seq 1 n).

(** Every thread's posts are numbered 1, 2, 3, ... in the order of
    insertion, and every post belongs to a thread of the table. *)
Definition numbered (w : World) : Prop :=
  (forall tid,
     thread_numbers tid w =
     count_from_1 (List.length (posts_by_thread tid w))) /\
  (forall p,
     In p (posts w) -> In (Post.thread_id p) (map Thread.id (threads w))).

(** ** Proof tools *)

Ltac unfold_handlers :=
  unfold run, create_post, load_form, handle_upload, generate_filename,
    board_or_404, thread_or_404, url_for_thread_view, add_thread, add_post,
    now, new_uuid, bind, ret, leave, get_world, modify in *.

(** The body is within the limit (the case above it is closed by
    [refused]). *)
Ltac limit_cases form refused :=
  destruct (PostForm.content_length form >? MAX_CONTENT_LENGTH) eqn:Hlimit;
  cbn beta iota; [refused|].

(** The ways the start of [create_post] can go: the body is above the
    limit or a file is accepted and [generate_filename] raises (both closed
    by [raised]), a file is accepted and stored, a file is not accepted,
    there is no file. *)
Ltac upload_cases form raised :=
  limit_cases form raised;
  destruct (PostForm.file form) as [f|]; cbn beta iota;
  [ destruct (accepted (Some f)); cbn beta iota;
    [ destruct (Py.rsplit_dot_1 _) as [e|]; cbn beta iota; [|raised] | ] | ].

(** The two ways [url_for] can go for the thread of a reply. *)
Ltac url_cases form :=
  destruct (PostForm.thread_id_is_int form) eqn:His_int; cbn beta iota.

(** Shows the thread lookup of a reply as a lookup in [w]. *)
Ltac lookup_in w tid :=
  try (unfold thread_get at 1; cbn [threads set_uploads set_uuid_reads];
       fold (thread_get tid w)).

(** ** The other routes *)

(** The values that [thread_view] hands to [thread.html]. *)
Module ThreadPage.
Record t := mk
  { board : Board.t;
    thread : Thread.t;
    posts : list Post.t }.
End ThreadPage.

Local Open Scope handler_scope.


(** [Thread.query.filter_by(id=thread_id, board_id=board_id)] *)
Definition threads_by_id_and_board (thread_id board_id : Z) (w : World)
    : list Thread.t :=
  filter (fun th => (Thread.id th =? thread_id) &&
                    (Thread.board_id th =? board_id)) (threads w).

(** [thread_view]: the value is what [thread.html] receives; the 404
    responses and the redirect of a thread without posts leave early. *)
Definition thread_view (board_name : string) (thread_id : Z)
    : Handler ThreadPage.t :=
  board <- board_or_404 board_name ;;
  w <- get_world ;;
  match first (threads_by_id_and_board thread_id (Board.id board) w) with
  | None => leave (Abort 404)
  | Some thread =>
      let posts := order_by post_created_asc (posts_by_thread thread_id w) in
      match posts with
      | [] =>
          leave (Redirect (Some "Thread has no posts")
                   (board_view_url board_name))
      | _ :: _ => ret (ThreadPage.mk board thread posts)
      end
  end.

Local Close Scope handler_scope.


(** ** Start-up: the default boards *)

Definition default_boards : list (string * string * string) :=
  [ ("b", "Random", "Random discussions");
    ("g", "Technology", "Technology discussions");
    ("v", "Video Games", "Video game discussions") ].

(** [db.session.add(board)] for the board built from [board_data]. *)
Definition insert_board (w : World) (board_data : string * string * string)
    : World :=
  let '(name, title, description) := board_data in
  set_boards
    (boards w ++
     [Board.mk (next_id (map Board.id (boards w))) name title description])
    w.

(** [create_tables], which is also the start-up block of the module: the
    default boards are added when the board table has no row. *)
Definition create_tables (w : World) : World :=
  match first (boards w) with
  | Some _ => w
  | None => fold_left insert_board default_boards w
  end.

(** ** Configuration: the database URL *)

(** [s.replace(old, new)] read from the left: [skip] counts the
    characters of a match of [old] that are still to be dropped. *)
Fixpoint replace_from (skip : nat) (old new s : string) : string :=
  match s with
  | EmptyString => EmptyString
  | String c r =>
      match skip with
      | S k => replace_from k old new r
      | O =>
          if String.prefix old s
          then (new ++ replace_from (String.length old - 1) old new r)%string
          else String c (replace_from 0 old new r)
      end
  end.

(** Lines 13-15: a URL that starts with [postgres://] has every
    [postgres://] replaced by [postgresql://]. *)
Definition fix_database_url (database_url : string) : string :=
  if String.prefix "postgres://" database_url
  then replace_from 0 "postgres://" "postgresql://" database_url
  else database_url.

(** ** Histories from a given world *)

(** The worlds that follow [w0] after any number of requests. *)
Inductive served (E : Env) (w0 : World) : World -> Prop :=
| served_start : served E w0 w0
| served_request w rq :
    served E w0 w -> served E w0 (snd (run (handle E rq) w)).

(** The columns of a thread that no route writes after the insert. *)
Definition fixed_columns (th : Thread.t)
    : Z * Z * string * Z * bool * bool :=
  (Thread.id th, Thread.board_id th, Thread.subject th,
   Thread.created_at th, Thread.is_pinned th, Thread.is_locked th).

(** [open(path, 'rb').read()] on the upload directory. *)
Definition read_file (path : string)
    (dir : list (string * list Byte.byte)) : option (list Byte.byte) :=
  option_map snd (find (fun e => (fst e =? path)%string) dir).

(** Every thread was bumped at a time that the clock has already shown. *)
Definition bumped_in_past (E : Env) (w : World) : Prop :=
  forall th, In th (threads w) ->
    exists i, (i < clock_reads w)%nat /\ Thread.bumped_at th = utcnow E i.

(** Every thread of the table has a post. *)
Definition no_empty_thread (w : World) : Prop :=
  forall th, In th (threads w) -> posts_by_thread (Thread.id th) w <> [].

(** A [secure_filename] that, like werkzeug's, strips the dots at the
    start of a name. *)
Fixpoint strip_dots (s : string) : string :=
  match s with
  | String c r => if Ascii.eqb c "." then strip_dots r else s
  | EmptyString => EmptyString
  end.

Definition stripping_env : Env :=
  mkEnv (utcnow ticking_env) (uuid4 ticking_env) strip_dots.

(** A database without any row. *)
Definition empty_world : World := mkWorld [] [] [] [] 0 0.

(** [one_thread] after a reply sent through the route of board [g]. *)
Definition crossed : World :=
  snd (run (create_post ticking_env "g" (text_form "reply" (Some 1)))
         one_thread).

(** ** What one request changes *)

(** The four ways a request changes the tables: not at all; a board is
    added; a thread is added with its first post; a thread is bumped and a
    post is added to it. *)
Inductive change (E : Env) (w w' : World) : Prop :=
| change_none :
    boards w' = boards w ->
    threads w' = threads w ->
    posts w' = posts w ->
    clock_reads w' = clock_reads w ->
    change E w w'
| change_board (b : Board.t) :
    boards w' = boards w ++ [b] ->
    Board.id b = next_id (map Board.id (boards w)) ->
    first (boards_by_name (Board.name b) w) = None ->
    threads w' = threads w ->
    posts w' = posts w ->
    clock_reads w' = clock_reads w ->
    uploads w' = uploads w ->
    change E w w'
| change_thread (board : Board.t) (th : Thread.t) (p : Post.t) :
    boards w' = boards w ->
    In board (boards w) ->
    threads w' = threads w ++ [th] ->
    Thread.id th = next_id (map Thread.id (threads w)) ->
    Thread.board_id th = Board.id board ->
    Py.truthy (Thread.subject th) = true ->
    Thread.created_at th = utcnow E (clock_reads w) ->
    Thread.bumped_at th = utcnow E (S (clock_reads w)) ->
    Thread.is_pinned th = false ->
    Thread.is_locked th = false ->
    posts w' = posts w ++ [p] ->
    Post.id p = next_id (map Post.id (posts w)) ->
    Post.thread_id p = Thread.id th ->
    Post.post_number p = 1 ->
    Post.created_at p = utcnow E (S (S (clock_reads w))) ->
    clock_reads w' = S (S (S (clock_reads w))) ->
    change E w w'
| change_reply (tid : Z) (th : Thread.t) (p : Post.t) :
    boards w' = boards w ->
    thread_get tid w = Some th ->
    Thread.is_locked th = false ->
    threads w' = bump tid (utcnow E (clock_reads w)) (threads w) ->
    posts w' = posts w ++ [p] ->
    Post.id p = next_id (map Post.id (posts w)) ->
    Post.thread_id p = tid ->
    Post.post_number p = get_next_post_number tid w ->
    Post.created_at p = utcnow E (S (clock_reads w)) ->
    clock_reads w' = S (S (clock_reads w)) ->
    change E w w'.

(** Keys are unique in each table, and so are the names of the boards. *)
Definition keys_unique (w : World) : Prop :=
  NoDup (map Board.id (boards w)) /\
  NoDup (map Board.name (boards w)) /\
  NoDup (map Thread.id (threads w)) /\
  NoDup (map Post.id (posts w)).

(** The columns that order the listing of a board. *)
Definition listing_key (th : Thread.t) : bool * Z :=
  (Thread.is_pinned th, Thread.bumped_at th).

(** Board [b] with twelve threads, bumped one after the other. *)
Definition twelve_threads : World :=
  mkWorld (boards seeded)
    (map (fun n => Thread.mk (Z.of_nat n) 1 "t" (Z.of_nat n) (Z.of_nat n)
                     false false) (seq 1 12))
    [] [] 0 0.

(** Every post belongs to a thread of the table and every thread to a
    board of the table. *)
Definition references_live (w : World) : Prop :=
  (forall p, In p (posts w) ->
     exists th, In th (threads w) /\ Thread.id th = Post.thread_id p) /\
  (forall th, In th (threads w) ->
     exists b, In b (boards w) /\ Board.id b = Thread.board_id th).

(** The posts are in the table in the order of their [created_at], and
    each was created at a time that the clock has already shown. *)
Definition posts_in_time (E : Env) (w : World) : Prop :=
  StronglySorted (fun a b => Post.created_at a <= Post.created_at b)
    (posts w) /\
  forall p, In p (posts w) ->
    exists i, (i < clock_reads w)%nat /\ Post.created_at p = utcnow E i.

(** ** Sorting *)

Section OrderBy.

Variable A : Type.
Variable le : A -> A -> bool.

Hypothesis le_total : forall a b, le a b = false -> le b a = true.
Hypothesis le_trans :
  forall a b c, le a b = true -> le b c = true -> le a c = true.

Lemma insert_by_perm (x : A) (l : list A) :
  Permutation (insert_by le x l) (x :: l).
Proof.
  induction l as [|y r IH]; simpl.
  - apply Permutation_refl.
  - destruct (le x y).
    + apply Permutation_refl.
    + eapply perm_trans; [apply perm_skip, IH | apply perm_swap].
Qed.

Lemma order_by_perm (l : list A) : Permutation (order_by le l) l.
Proof.
  induction l as [|x r IH]; simpl.
  - constructor.
  - eapply perm_trans; [apply insert_by_perm | apply perm_skip, IH].
Qed.

Lemma insert_by_sorted (x : A) (l : list A) :
  StronglySorted (fun a b => le a b = true) l ->
  StronglySorted (fun a b => le a b = true) (insert_by le x l).
Proof.
  induction 1 as [|y r Hs IH Hall]; simpl.
  - repeat constructor.
  - destruct (le x y) eqn:Hxy.
    + constructor; [constructor; assumption|].
      constructor; [assumption|].
      eapply Forall_impl; [|exact Hall].
      intros z Hyz. eapply le_trans; eassumption.
    + constructor; [assumption|].
      eapply Permutation_Forall.
      * apply Permutation_sym, insert_by_perm.
      * constructor; [apply le_total, Hxy | assumption].
Qed.

Lemma order_by_sorted (l : list A) :
  StronglySorted (fun a b => le a b = true) (order_by le l).
Proof.
  induction l as [|x r IH]; simpl.
  - constructor.
  - apply insert_by_sorted, IH.
Qed.

(** The first row of an ordered query comes before every row. *)
Lemma first_order_by (l : list A) (x : A) :
  first (order_by le l) = Some x ->
  In x l /\ forall y, In y l -> le x y = true \/ y = x.
Proof.
  intros Hf.
  pose proof (order_by_sorted l) as Hs.
  pose proof (order_by_perm l) as Hp.
  destruct (order_by le l) as [|h t] eqn:Ho; [discriminate|].
  injection Hf as ->.
  split.
  - eapply Permutation_in; [exact Hp | left; reflexivity].
  - intros y Hy.
    apply (Permutation_in _ (Permutation_sym Hp)) in Hy.
    destruct Hy as [->|Hy]; [right; reflexivity|left].
    inversion Hs as [|? ? _ Hall]; subst.
    rewrite Forall_forall in Hall. apply Hall, Hy.
Qed.

Lemma first_order_by_none (l : list A) :
  first (order_by le l) = None -> l = [].
Proof.
  intros Hf.
  pose proof (order_by_perm l) as Hp.
  destruct (order_by le l); [|discriminate].
  apply Permutation_nil in Hp. exact Hp.
Qed.

(** Two ordered lists of the same rows are equal when no two rows tie. *)
Lemma sorted_perm_eq (l1 l2 : list A) :
  (forall a b, In a l1 -> In b l1 ->
     le a b = true -> le b a = true -> a = b) ->
  Permutation l1 l2 ->
  StronglySorted (fun a b => le a b = true) l1 ->
  StronglySorted (fun a b => le a b = true) l2 ->
  l1 = l2.
Proof.
  revert l2. induction l1 as [|x r1 IH]; intros l2 Hanti Hp Hs1 Hs2.
  - apply Permutation_nil in Hp. symmetry. exact Hp.
  - destruct l2 as [|y r2];
      [apply Permutation_sym, Permutation_nil in Hp; discriminate|].
    inversion Hs1 as [|? ? Hs1' Hall1]; subst.
    inversion Hs2 as [|? ? Hs2' Hall2]; subst.
    rewrite Forall_forall in Hall1, Hall2.
    assert (Hxy : x = y).
    { assert (Hx : In x (y :: r2))
        by (apply (Permutation_in _ Hp); left; reflexivity).
      assert (Hy : In y (x :: r1))
        by (apply (Permutation_in _ (Permutation_sym Hp)); left; reflexivity).
      destruct Hx as [Hx|Hx]; [symmetry; exact Hx|].
      destruct Hy as [Hy|Hy]; [exact Hy|].
      apply Hanti; [left; reflexivity|right; exact Hy|apply Hall1, Hy
                   |apply Hall2, Hx]. }
    subst y. f_equal. apply Permutation_cons_inv in Hp.
    apply IH; try assumption.
    intros a b Ha Hb. apply Hanti; right; assumption.
Qed.

(** With keys that tell the rows apart, [order_by] returns the one
    ordered list of the rows: the order of rows with equal keys, which the
    database leaves open, does not come into play. *)
Lemma order_by_determined (l l' : list A) :
  (forall a b, In a l -> In b l ->
     le a b = true -> le b a = true -> a = b) ->
  Permutation l' l ->
  StronglySorted (fun a b => le a b = true) l' ->
  l' = order_by le l.
Proof.
  intros Hanti Hp Hs. apply sorted_perm_eq.
  - intros a b Ha Hb. apply Hanti; eapply Permutation_in; eassumption.
  - eapply perm_trans; [exact Hp|apply Permutation_sym, order_by_perm].
  - exact Hs.
  - apply order_by_sorted.
Qed.

End OrderBy.

Lemma NoDup_map_eq (A B : Type) (f : A -> B) (l : list A) (a b : A) :
  NoDup (map f l) -> In a l -> In b l -> f a = f b -> a = b.
Proof.
  induction l as [|x r IH]; cbn [map]; [contradiction|].
  intros Hnd Ha Hb Hf. inversion Hnd as [|? ? Hnot Hnd']; subst.
  destruct Ha as [<-|Ha], Hb as [<-|Hb].
  - reflexivity.
  - exfalso. apply Hnot. rewrite Hf. apply in_map, Hb.
  - exfalso. apply Hnot. rewrite <- Hf. apply in_map, Ha.
  - apply IH; assumption.
Qed.

(** ** Keys and rows *)

Lemma next_id_fresh (ids : list Z) (x : Z) : In x ids -> x < next_id ids.
Proof.
  unfold next_id. induction ids as [|y r IH]; cbn [fold_right In].
  - contradiction.
  - intros [->|Hx]; [lia|]. specialize (IH Hx). lia.
Qed.

Lemma thread_get_some (tid : Z) (w : World) (th : Thread.t) :
  thread_get tid w = Some th -> In th (threads w) /\ Thread.id th = tid.
Proof.
  unfold thread_get. intros Hf. apply find_some in Hf.
  destruct Hf as [Hin Heq]. apply Z.eqb_eq in Heq. auto.
Qed.

Lemma bump_ids (tid v : Z) (ts : list Thread.t) :
  map Thread.id (bump tid v ts) = map Thread.id ts.
Proof.
  unfold bump. rewrite map_map. apply map_ext.
  intros th. destruct (Thread.id th =? tid); reflexivity.
Qed.

Lemma posts_by_thread_app (tid : Z) (w w' : World) (p : Post.t) :
  posts w' = posts w ++ [p] ->
  posts_by_thread tid w' =
  posts_by_thread tid w ++ (if Post.thread_id p =? tid then [p] else []).
Proof.
  unfold posts_by_thread. intros ->. rewrite filter_app. reflexivity.
Qed.

Lemma posts_by_thread_same (tid : Z) (w w' : World) :
  posts w' = posts w -> posts_by_thread tid w' = posts_by_thread tid w.
Proof. unfold posts_by_thread. intros ->. reflexivity. Qed.

Lemma post_number_desc_total (a b : Post.t) :
  post_number_desc a b = false -> post_number_desc b a = true.
Proof.
  unfold post_number_desc. intros H.
  apply Z.leb_gt in H. apply Z.leb_le. lia.
Qed.

Lemma post_number_desc_trans (a b c : Post.t) :
  post_number_desc a b = true -> post_number_desc b c = true ->
  post_number_desc a c = true.
Proof.
  unfold post_number_desc. intros H1 H2.
  apply Z.leb_le in H1, H2. apply Z.leb_le. lia.
Qed.

(** [get_next_post_number] is 1 on a thread without posts, and otherwise
    one more than a post number of the thread that no other exceeds. *)
Lemma get_next_post_number_max (tid : Z) (w : World) :
  (posts_by_thread tid w = [] -> get_next_post_number tid w = 1) /\
  (posts_by_thread tid w <> [] ->
   (exists p, In p (posts_by_thread tid w) /\
              get_next_post_number tid w = Post.post_number p + 1) /\
   (forall q, In q (posts_by_thread tid w) ->
              Post.post_number q + 1 <= get_next_post_number tid w)).
Proof.
  unfold get_next_post_number. split.
  - intros ->. reflexivity.
  - intros Hne.
    destruct (first (order_by post_number_desc (posts_by_thread tid w)))
      as [last_post|] eqn:Hf.
    + destruct (first_order_by post_number_desc post_number_desc_total
                  post_number_desc_trans _ Hf) as [Hin Hmax].
      split; [exists last_post; auto|].
      intros q Hq. destruct (Hmax q Hq) as [Hle| ->]; [|lia].
      unfold post_number_desc in Hle. apply Z.leb_le in Hle. lia.
    + apply first_order_by_none in Hf. contradiction.
Qed.

(** ** What [create_post] does to the tables *)

Lemma within_limit_passes (form : PostForm.t) :
  within_limit form ->
  (PostForm.content_length form >? MAX_CONTENT_LENGTH) = false.
Proof.
  unfold within_limit. intros H.
  destruct (Z.gtb_spec (PostForm.content_length form) MAX_CONTENT_LENGTH);
    [lia|reflexivity].
Qed.

Lemma thread_get_threads (tid : Z) (w w' : World) :
  threads w' = threads w -> thread_get tid w' = thread_get tid w.
Proof. unfold thread_get. intros ->. reflexivity. Qed.

Section Effects.

Variable E : Env.

(** A request to [create_post] leaves the boards alone and either leaves
    threads and posts alone, or adds a thread with its post number 1, or
    bumps a thread and adds a post with the thread's next number. *)
Lemma create_post_effect (board_name : string) (form : PostForm.t)
    (w w' : World) (r : Response) :
  run (create_post E board_name form) w = (r, w') ->
  boards w' = boards w /\
  ((threads w' = threads w /\ posts w' = posts w) \/
   (exists th p,
      PostForm.thread_id form = None /\
      threads w' = threads w ++ [th] /\
      Thread.id th = next_id (map Thread.id (threads w)) /\
      posts w' = posts w ++ [p] /\
      Post.thread_id p = Thread.id th /\
      Post.post_number p = 1) \/
   (exists tid th v p,
      PostForm.thread_id form = Some tid /\
      thread_get tid w = Some th /\
      threads w' = bump tid v (threads w) /\
      posts w' = posts w ++ [p] /\
      Post.thread_id p = tid /\
      Post.post_number p = get_next_post_number tid w)).
Proof.
  unfold_handlers.
  destruct (first (boards_by_name board_name w)) as [board|];
    [|intros [= <- <-]; auto].
  upload_cases form ltac:(intros [= <- <-]; auto);
    (destruct (PostForm.thread_id form) as [tid|] eqn:Htid; cbn beta iota;
     [ lookup_in w tid;
       destruct (thread_get tid w) as [th|] eqn:Hth; cbn beta iota;
       [|intros [= <- <-]; auto];
       destruct (Thread.is_locked th); url_cases form;
       intros [= <- <-]; cbn; auto;
       (split; [reflexivity|]); right; right;
       eexists tid, th, _, _; repeat split; try reflexivity; assumption
     | destruct (negb _ && negb _ && negb _); cbn beta iota;
       intros [= <- <-]; cbn; [auto|];
       split; [reflexivity|]; right; left;
       eexists _, _; repeat split; reflexivity ]).
Qed.

End Effects.

(** ** Post numbers along a history *)

Lemma count_from_1_S (n : nat) :
  count_from_1 (S n) = count_from_1 n ++ [Z.of_nat n + 1].
Proof.
  unfold count_from_1. rewrite seq_S, map_app. cbn [map].
  do 2 f_equal. lia.
Qed.

Lemma count_from_1_bounds (n : nat) (x : Z) :
  In x (count_from_1 n) -> 1 <= x <= Z.of_nat n.
Proof.
  unfold count_from_1. rewrite in_map_iff.
  intros [k [<- Hk]]. apply in_seq in Hk. lia.
Qed.

Lemma count_from_1_last (n : nat) : In (Z.of_nat (S n)) (count_from_1 (S n)).
Proof.
  unfold count_from_1. apply in_map, in_seq. lia.
Qed.

(** In a numbered world the next number of a thread is its number of posts
    plus one. *)
Lemma numbered_next (w : World) (tid : Z) :
  numbered w ->
  get_next_post_number tid w =
  Z.of_nat (List.length (posts_by_thread tid w)) + 1.
Proof.
  intros [Hnum _]. specialize (Hnum tid). unfold thread_numbers in Hnum.
  destruct (get_next_post_number_max tid w) as [Hnil Hcons].
  destruct (posts_by_thread tid w) as [|p0 ps] eqn:Hps.
  - rewrite Hnil; reflexivity.
  - assert (Hne : p0 :: ps <> []) by discriminate.
    destruct (Hcons Hne) as [[p [Hin Hp]] Hmax]. clear Hnil Hcons.
    set (n := List.length ps) in *.
    change (List.length (p0 :: ps)) with (S n) in *.
    assert (Hup : Post.post_number p <= Z.of_nat (S n)).
    { apply (count_from_1_bounds (S n)). rewrite <- Hnum.
      apply in_map, Hin. }
    assert (Hlast : In (Z.of_nat (S n)) (map Post.post_number (p0 :: ps))).
    { rewrite Hnum. apply count_from_1_last. }
    apply in_map_iff in Hlast. destruct Hlast as [q [Hq Hqin]].
    specialize (Hmax q Hqin). lia.
Qed.

Lemma numbered_start (w : World) :
  threads w = [] -> posts w = [] -> numbered w.
Proof.
  intros Ht Hp. split.
  - intros tid. unfold thread_numbers, posts_by_thread. rewrite Hp. reflexivity.
  - intros p. rewrite Hp. contradiction.
Qed.

Lemma numbered_same (w w' : World) :
  threads w' = threads w -> posts w' = posts w -> numbered w -> numbered w'.
Proof.
  intros Ht Hp [Hnum Hfk]. split.
  - intros tid. unfold thread_numbers.
    rewrite (posts_by_thread_same tid _ _ Hp). apply Hnum.
  - intros p. rewrite Hp, Ht. apply Hfk.
Qed.

(** Adding to thread [tid] a post that carries the thread's count plus one
    keeps the world numbered. *)
Lemma numbered_add (w w' : World) (p : Post.t) :
  numbered w ->
  map Thread.id (threads w') = map Thread.id (threads w) ++
    (if existsb (Z.eqb (Post.thread_id p)) (map Thread.id (threads w))
     then [] else [Post.thread_id p]) ->
  posts w' = posts w ++ [p] ->
  Post.post_number p =
    Z.of_nat (List.length (posts_by_thread (Post.thread_id p) w)) + 1 ->
  numbered w'.
Proof.
  intros [Hnum Hfk] Hts Hps Hn. split.
  - intros tid. unfold thread_numbers.
    rewrite (posts_by_thread_app tid _ _ _ Hps).
    destruct (Z.eqb_spec (Post.thread_id p) tid) as [<-|Hneq].
    + rewrite map_app, length_app, Nat.add_comm. cbn [List.length Nat.add map].
      rewrite count_from_1_S. f_equal; [apply Hnum|]. rewrite Hn. reflexivity.
    + rewrite app_nil_r. apply Hnum.
  - intros q. rewrite Hps, Hts. intros Hq. apply in_app_or in Hq.
    apply in_or_app. destruct Hq as [Hq|[<-|[]]]; [left; apply Hfk, Hq|].
    destruct (existsb _ _) eqn:Hex; [left|right; left; reflexivity].
    apply existsb_exists in Hex. destruct Hex as [x [Hx Heq]].
    apply Z.eqb_eq in Heq. subst x. exact Hx.
Qed.

Section History.

Variable E : Env.

Lemma create_post_numbered (board_name : string) (form : PostForm.t)
    (w : World) :
  numbered w -> numbered (snd (run (create_post E board_name form) w)).
Proof.
  intros Hw.
  destruct (run (create_post E board_name form) w) as [r w'] eqn:Hrun.
  cbn [snd].
  destruct (create_post_effect _ _ _ _ Hrun)
    as [_ [[Ht Hp]|[(th & p & _ & Ht & Hid & Hp & Hpt & Hn)
                   |(tid & th & v & p & _ & Hth & Ht & Hp & Hpt & Hn)]]].
  - eapply numbered_same; eassumption.
  - assert (Hfresh : ~ In (Thread.id th) (map Thread.id (threads w))).
    { intros Hin. apply next_id_fresh in Hin. lia. }
    assert (Hnone : posts_by_thread (Thread.id th) w = []).
    { unfold posts_by_thread.
      destruct (filter _ (posts w)) as [|q qs] eqn:Hf; [reflexivity|].
      assert (Hq : In q (filter (fun p0 => Post.thread_id p0 =? Thread.id th)
                           (posts w))) by (rewrite Hf; left; reflexivity).
      apply filter_In in Hq. destruct Hq as [Hq Heq].
      apply Z.eqb_eq in Heq. destruct Hw as [_ Hfk].
      apply Hfk in Hq. rewrite Heq in Hq. contradiction. }
    apply numbered_add with (w := w) (p := p); [assumption| |assumption|].
    + rewrite Ht, map_app, Hpt. cbn [map].
      destruct (existsb _ _) eqn:Hex; [|reflexivity].
      apply existsb_exists in Hex. destruct Hex as [x [Hx Heq]].
      apply Z.eqb_eq in Heq. subst x. contradiction.
    + rewrite Hpt, Hnone, Hn. reflexivity.
  - apply thread_get_some in Hth. destruct Hth as [Hin Hid].
    apply numbered_add with (w := w) (p := p); [assumption| |assumption|].
    + rewrite Ht, bump_ids, Hpt.
      destruct (existsb _ _) eqn:Hex; [rewrite app_nil_r; reflexivity|].
      assert (Hex' : existsb (Z.eqb tid) (map Thread.id (threads w)) = true).
      { apply existsb_exists. exists tid. split; [|apply Z.eqb_refl].
        rewrite <- Hid. apply in_map, Hin. }
      congruence.
    + rewrite Hpt, Hn. apply numbered_next, Hw.
Qed.

Lemma create_board_tables (method : Method) (form : BoardForm.t)
    (w : World) :
  threads (snd (run (create_board method form) w)) = threads w /\
  posts (snd (run (create_board method form) w)) = posts w.
Proof.
  unfold run, create_board, form_item, bind, ret, leave, get_world, modify.
  destruct method; [auto|].
  destruct (BoardForm.name form); [|auto].
  destruct (BoardForm.title form); [|auto].
  cbn beta iota. destruct (first _); auto.
Qed.

Lemma board_view_world (board_name : string) (page : Z) (w : World) :
  snd (run (board_view board_name page) w) = w.
Proof.
  unfold run, board_view, board_or_404, bind, ret, leave, get_world.
  destruct (first _); [destruct (_ >? _)|]; reflexivity.
Qed.

(** Every world of a history is numbered. *)
Lemma reachable_numbered (w : World) : reachable E w -> numbered w.
Proof.
  induction 1 as [w Ht Hp|w rq Hr IH].
  - apply numbered_start; assumption.
  - destruct rq as [board_name form|method form|board_name page];
      cbn [handle].
    + apply create_post_numbered, IH.
    + destruct (create_board_tables method form w) as [Ht Hp].
      eapply numbered_same; eassumption.
    + rewrite board_view_world. exact IH.
Qed.

End History.

(** ** Claims *)

(** C1.  [get_next_post_number] returns 1 for a thread without posts, and
    otherwise one more than the largest [post_number] among the posts of
    the thread.  Consequently, along any history of requests that starts
    from a database without threads and posts, a post that [create_post]
    appends to a thread carries the number of posts the thread had before,
    plus one: the numbers of a thread start at 1 and grow by exactly 1 per
    appended post. *)
Theorem C1_next_post_number (E : Env) :
  (forall (w : World) (tid : Z),
     (posts_by_thread tid w = [] -> get_next_post_number tid w = 1) /\
     (posts_by_thread tid w <> [] ->
      (exists p, In p (posts_by_thread tid w) /\
                 get_next_post_number tid w = Post.post_number p + 1) /\
      (forall q, In q (posts_by_thread tid w) ->
                 Post.post_number q + 1 <= get_next_post_number tid w))) /\
  (forall (w w' : World) (board_name : string) (form : PostForm.t)
          (r : Response) (p : Post.t),
     reachable E w ->
     run (create_post E board_name form) w = (r, w') ->
     posts w' = posts w ++ [p] ->
     Post.post_number p =
       Z.of_nat (List.length (posts_by_thread (Post.thread_id p) w)) + 1 /\
     thread_numbers (Post.thread_id p) w' =
       count_from_1 (S (List.length (posts_by_thread (Post.thread_id p) w)))).
Proof.
  split; [intros w tid; apply get_next_post_number_max|].
  intros w w' board_name form r p Hreach Hrun Hposts.
  assert (Hnum' : numbered w').
  { replace w' with (snd (run (create_post E board_name form) w))
      by (rewrite Hrun; reflexivity).
    apply create_post_numbered, (reachable_numbered Hreach). }
  destruct (reachable_numbered Hreach) as [Hnum _].
  destruct Hnum' as [Hnum' _].
  specialize (Hnum (Post.thread_id p)). specialize (Hnum' (Post.thread_id p)).
  unfold thread_numbers in *.
  rewrite (posts_by_thread_app (Post.thread_id p) _ _ _ Hposts) in Hnum' |- *.
  rewrite Z.eqb_refl in Hnum' |- *.
  rewrite length_app, Nat.add_comm in Hnum'. cbn [List.length Nat.add] in Hnum'.
  split; [|exact Hnum'].
  rewrite count_from_1_S, map_app, Hnum in Hnum'.
  apply app_inv_head in Hnum'. cbn [map] in Hnum'.
  injection Hnum' as ->. reflexivity.
Qed.

(** C1 on the sample history: the reply to the first thread gets number 2. *)
Lemma C1_next_post_number_witness :
  get_next_post_number 1 one_thread = 2 /\
  posts (snd (run (create_post ticking_env "g" (text_form "reply" (Some 1)))
                one_thread)) = posts one_thread ++ [the_reply] /\
  Post.post_number the_reply = 2.
Proof.
  destruct (C1_next_post_number ticking_env) as [Hnext Hseq]. split.
  - destruct (Hnext one_thread 1) as [_ Hmax].
    destruct Hmax as [[p [Hin Hp]] _]; [discriminate|].
    destruct Hin as [<-|[]]. exact Hp.
  - split; [reflexivity|].
    assert (Hreach : reachable ticking_env one_thread).
    { apply (@reach_request ticking_env seeded
               (post_request "b" (text_form "hello" None))).
      apply reach_start; reflexivity. }
    exact (proj1 (Hseq one_thread _ "g" (text_form "reply" (Some 1)) _
                    the_reply Hreach eq_refl eq_refl)).
Defined.

Lemma pinned_then_bumped_desc_total (a b : Thread.t) :
  pinned_then_bumped_desc a b = false -> pinned_then_bumped_desc b a = true.
Proof.
  unfold pinned_then_bumped_desc.
  destruct (Thread.is_pinned a), (Thread.is_pinned b); cbn;
    try discriminate; try reflexivity;
    intros H; apply Z.leb_gt in H; apply Z.leb_le; lia.
Qed.

Lemma pinned_then_bumped_desc_trans (a b c : Thread.t) :
  pinned_then_bumped_desc a b = true -> pinned_then_bumped_desc b c = true ->
  pinned_then_bumped_desc a c = true.
Proof.
  unfold pinned_then_bumped_desc.
  destruct (Thread.is_pinned a), (Thread.is_pinned b), (Thread.is_pinned c);
    cbn; try discriminate; try reflexivity;
    intros H1 H2; apply Z.leb_le in H1, H2; apply Z.leb_le; lia.
Qed.

Lemma pinned_then_bumped_desc_true (a b : Thread.t) :
  pinned_then_bumped_desc a b = true ->
  (Thread.is_pinned b = true -> Thread.is_pinned a = true) /\
  (Thread.is_pinned a = Thread.is_pinned b ->
   Thread.bumped_at b <= Thread.bumped_at a).
Proof.
  unfold pinned_then_bumped_desc.
  destruct (Thread.is_pinned a), (Thread.is_pinned b); cbn; intros H;
    split; intros H'; try discriminate; try reflexivity;
    apply Z.leb_le in H; exact H.
Qed.

(** Two positions of a sorted list hold related elements. *)
Lemma StronglySorted_nth_error (A : Type) (R : A -> A -> Prop) (l : list A) :
  StronglySorted R l ->
  forall (i j : nat) (a b : A),
    (i < j)%nat -> nth_error l i = Some a -> nth_error l j = Some b -> R a b.
Proof.
  induction 1 as [|x r Hs IH Hall]; intros i j a b Hij Ha Hb.
  - destruct i; discriminate.
  - destruct j as [|j]; [lia|]. cbn in Hb.
    destruct i as [|i]; cbn in Ha.
    + injection Ha as <-. rewrite Forall_forall in Hall.
      apply Hall. eapply nth_error_In, Hb.
    + apply (IH i j); [lia|assumption|assumption].
Qed.

Lemma board_listing_order (bid : Z) (w : World) :
  pinned_first_recent_first (board_listing bid w).
Proof.
  intros i j a b Hij Ha Hb. apply pinned_then_bumped_desc_true.
  eapply (StronglySorted_nth_error
            (order_by_sorted _ pinned_then_bumped_desc_total
               pinned_then_bumped_desc_trans (threads_by_board bid w)));
    eassumption.
Qed.

(** The positions of a page are positions of the listing, in the same
    order. *)
Lemma paginate_nth_error (A : Type) (page : Z) (per_page : nat) (l : list A)
    (i : nat) (a : A) :
  nth_error (paginate page per_page l) i = Some a ->
  nth_error l
    (Z.to_nat ((if page <? 1 then 1 else page) - 1) * per_page + i) = Some a.
Proof.
  unfold paginate. rewrite nth_error_firstn.
  destruct (Nat.ltb i per_page); [|discriminate].
  rewrite nth_error_skipn. auto.
Qed.

Lemma paginate_order (page : Z) (per_page : nat) (l : list Thread.t) :
  pinned_first_recent_first l ->
  pinned_first_recent_first (paginate page per_page l).
Proof.
  intros Hl i j a b Hij Ha Hb.
  apply paginate_nth_error in Ha, Hb.
  eapply Hl; [|exact Ha|exact Hb]. lia.
Qed.

Lemma thread_item_thread (w : World) (l : list Thread.t) :
  map ThreadItem.thread (map (thread_item w) l) = l.
Proof.
  rewrite map_map. cbn. apply map_id.
Qed.

(** C2.  The threads of a page that [board_view] renders are a window of
    the board's listing; the listing holds exactly the threads of the
    board, and in the listing as on every page all pinned threads come
    before all threads that are not pinned, whatever their [bumped_at],
    and within each of the two groups the threads are in descending order
    of [bumped_at]. *)
Theorem C2_board_view_order (board_name : string) (page : Z) (w w' : World)
    (board : Board.t) (items : list ThreadItem.t) :
  run (board_view board_name page) w = (Render (board_html board items), w') ->
  map ThreadItem.thread items =
    paginate page 10 (board_listing (Board.id board) w) /\
  Permutation (board_listing (Board.id board) w)
    (threads_by_board (Board.id board) w) /\
  pinned_first_recent_first (board_listing (Board.id board) w) /\
  pinned_first_recent_first (map ThreadItem.thread items).
Proof.
  unfold run, board_view, board_or_404, bind, ret, leave, get_world.
  destruct (first (boards_by_name board_name w)) as [b|]; [|discriminate].
  destruct (page_offset page 10 >? MAX_BOUND_INTEGER); [discriminate|].
  intros [= <- <- <-].
  rewrite thread_item_thread.
  split; [reflexivity|].
  split; [apply order_by_perm|].
  split; [apply board_listing_order|].
  apply paginate_order, board_listing_order.
Qed.

(** C2 on the sample board: the pinned thread 2 comes first although it
    was bumped first, then thread 3, then thread 1. *)
Lemma C2_board_view_order_witness :
  map Thread.id (board_listing 1 three_threads) = [2; 3; 1] /\
  pinned_first_recent_first (board_listing 1 three_threads).
Proof.
  split; [reflexivity|].
  eapply (fun H => proj1 (proj2 (proj2
            (@C2_board_view_order "b" 1 three_threads _
               (Board.mk 1 "b" "Random" "Random discussions") _ H)))).
  reflexivity.
Defined.

(** C3 fails as stated: a reply to a locked thread is not always answered
    with the Locked error.  The thread of [locked_thread] is locked, and
    the reply to it that carries the file [.png], a name that
    [secure_filename] turns into [png], ends with the [IndexError] of
    [generate_filename] before the lock is looked at; the reply whose body
    is above [MAX_CONTENT_LENGTH] is answered with 413; the reply whose
    thread id is sent as [1.0] ends with the [ValueError] of [url_for]. *)
Lemma C3_counterexample :
  option_map Thread.is_locked (thread_get 1 locked_thread) = Some true /\
  fst (run (create_post stripping_env "b"
              (file_form "reply" (Some 1) ".png")) locked_thread)
  = IndexError /\
  fst (run (create_post ticking_env "b" (oversized_form (Some 1)))
         locked_thread) = Abort 413 /\
  fst (run (create_post ticking_env "b" decimal_id_form) locked_thread)
  = ValueError /\
  IndexError <> Locked "b" 1 /\
  Abort 413 <> Locked "b" 1 /\
  ValueError <> Locked "b" 1.
Proof. repeat split; try reflexivity; discriminate. Qed.

(** C3, amended.  A reply to a thread whose [is_locked] is true changes no
    table: boards, threads and posts are as before, so the thread has as
    many posts as before and its [bumped_at] is not advanced.  The
    response is 413 when the body is above [MAX_CONTENT_LENGTH], else the
    [IndexError] of the upload step when that raises, else the redirect
    with the flash "Thread is locked" when the thread id was sent as an
    integer numeral, and the [ValueError] of [url_for] when it was not. *)
Theorem C3_locked_reply (E : Env) (board_name : string) (form : PostForm.t)
    (w w' : World) (r : Response) (board : Board.t) (tid : Z)
    (th : Thread.t) :
  first (boards_by_name board_name w) = Some board ->
  PostForm.thread_id form = Some tid ->
  thread_get tid w = Some th ->
  Thread.is_locked th = true ->
  run (create_post E board_name form) w = (r, w') ->
  r = (if PostForm.content_length form >? MAX_CONTENT_LENGTH then Abort 413
       else if upload_raises E (PostForm.file form) then IndexError
       else if PostForm.thread_id_is_int form then Locked board_name tid
       else ValueError) /\
  (within_limit form ->
   upload_raises E (PostForm.file form) = false ->
   PostForm.thread_id_is_int form = true ->
   r = Locked board_name tid) /\
  boards w' = boards w /\ threads w' = threads w /\ posts w' = posts w /\
  List.length (posts_by_thread tid w') = List.length (posts_by_thread tid w) /\
  option_map Thread.bumped_at (thread_get tid w') = Some (Thread.bumped_at th).
Proof.
  intros Hboard Htid Hth Hlock Hrun.
  assert (Hmain :
    r = (if PostForm.content_length form >? MAX_CONTENT_LENGTH then Abort 413
         else if upload_raises E (PostForm.file form) then IndexError
         else if PostForm.thread_id_is_int form then Locked board_name tid
         else ValueError) /\
    boards w' = boards w /\ threads w' = threads w /\ posts w' = posts w).
  { revert Hrun. unfold_handlers. unfold upload_raises, Locked.
    rewrite Hboard, Htid.
    upload_cases form ltac:(intros [= <- <-]; repeat split);
      lookup_in w tid;
      rewrite Hth; cbn beta iota; rewrite Hlock; url_cases form;
      intros [= <- <-]; repeat split. }
  destruct Hmain as (Hr & Hb & Ht & Hp).
  repeat split; try assumption.
  - intros Hle Hraise Hint. rewrite Hr, Hraise, Hint.
    unfold within_limit in Hle.
    destruct (Z.gtb_spec (PostForm.content_length form) MAX_CONTENT_LENGTH);
      [lia|reflexivity].
  - rewrite (posts_by_thread_same tid _ _ Hp). reflexivity.
  - rewrite (thread_get_threads tid _ _ Ht), Hth. reflexivity.
Qed.

(** C3 as amended, on the sample: a reply with an image to the locked
    thread is answered with the Locked error and adds no post. *)
Lemma C3_locked_reply_witness :
  fst (run (create_post ticking_env "b" (file_form "reply" (Some 1) "cat.png"))
         locked_thread) = Locked "b" 1 /\
  posts (snd (run (create_post ticking_env "b"
                     (file_form "reply" (Some 1) "cat.png")) locked_thread))
  = posts locked_thread.
Proof.
  pose proof (@C3_locked_reply ticking_env "b"
                (file_form "reply" (Some 1) "cat.png") locked_thread _ _
                (Board.mk 1 "b" "Random" "Random discussions") 1
                (Thread.mk 1 1 "No Subject" 1700000000 1700000001 false true)
                eq_refl eq_refl eq_refl eq_refl eq_refl) as H.
  destruct H as (_ & Hr & _ & _ & Hp & _).
  split; [|exact Hp].
  apply Hr; [unfold within_limit; cbn; lia|reflexivity|reflexivity].
Defined.

(** C4.  A post without [thread_id] on an existing board, in a body
    within [MAX_CONTENT_LENGTH], with an empty (or missing) subject, an
    empty (or missing) comment and no accepted file, is answered with the
    flash "Thread must have subject, comment, or image" and leaves the
    world as it is: no thread row and no post row is created. *)
Theorem C4_empty_thread_rejected (E : Env) (board_name : string)
    (form : PostForm.t) (w w' : World) (r : Response) (board : Board.t) :
  first (boards_by_name board_name w) = Some board ->
  within_limit form ->
  PostForm.thread_id form = None ->
  form_get (PostForm.subject form) "" = "" ->
  form_get (PostForm.comment form) "" = "" ->
  accepted (PostForm.file form) = false ->
  run (create_post E board_name form) w = (r, w') ->
  r = ValidationError board_name /\
  w' = w /\ threads w' = threads w /\ posts w' = posts w.
Proof.
  intros Hboard Hlimit Htid Hsubj Hcomm Hacc.
  apply within_limit_passes in Hlimit.
  unfold_handlers. unfold ValidationError.
  rewrite Hboard, Hlimit, Htid, Hsubj, Hcomm.
  destruct (PostForm.file form) as [f|]; [rewrite Hacc|];
    cbn; intros [= <- <-]; auto.
Qed.

(** C4 on the sample: an empty form with a file that is not allowed. *)
Lemma C4_empty_thread_rejected_witness :
  fst (run (create_post ticking_env "g" (file_form "" None "cat.exe")) seeded)
  = ValidationError "g" /\
  snd (run (create_post ticking_env "g" (file_form "" None "cat.exe")) seeded)
  = seeded.
Proof.
  destruct (@C4_empty_thread_rejected ticking_env "g"
              (file_form "" None "cat.exe") seeded _ _
              (Board.mk 2 "g" "Technology" "Technology discussions")
              eq_refl ltac:(unfold within_limit; cbn; lia)
              eq_refl eq_refl eq_refl eq_refl eq_refl)
    as (Hr & Hw & _).
  exact (conj Hr Hw).
Defined.

(** C5 fails as stated: with a clock that advances between two reads, the
    thread that a first post creates has a [bumped_at] later than its
    [created_at]. *)
Lemma C5_counterexample :
  exists th,
    threads (snd (run (create_post ticking_env "b" (text_form "hello" None))
                    seeded)) = [th] /\
    Thread.created_at th = 1700000000 /\
    Thread.bumped_at th = 1700000001 /\
    Thread.bumped_at th <> Thread.created_at th.
Proof.
  eexists. split; [reflexivity|]. cbn. repeat split. discriminate.
Qed.

(** C5, amended.  When [create_post] creates a thread, the new row is the
    only change of the thread table, its [created_at] is the clock read
    first and its [bumped_at] the clock read next.  The two are equal when
    the two reads return the same value, [bumped_at] is not earlier than
    [created_at] when the clock never goes back, and the first post does
    no bump after that. *)
Theorem C5_thread_timestamps (E : Env) (board_name : string)
    (form : PostForm.t) (w w' : World) (tid : Z) :
  PostForm.thread_id form = None ->
  run (create_post E board_name form) w =
    (Redirect None (thread_view_url board_name tid), w') ->
  exists th,
    threads w' = threads w ++ [th] /\
    Thread.id th = tid /\
    Thread.created_at th = utcnow E (clock_reads w) /\
    Thread.bumped_at th = utcnow E (S (clock_reads w)) /\
    (utcnow E (S (clock_reads w)) = utcnow E (clock_reads w) ->
     Thread.bumped_at th = Thread.created_at th) /\
    ((forall i j, (i <= j)%nat -> utcnow E i <= utcnow E j) ->
     Thread.created_at th <= Thread.bumped_at th).
Proof.
  intros Htid. unfold_handlers. rewrite Htid.
  destruct (first (boards_by_name board_name w)) as [board|]; [|discriminate].
  upload_cases form ltac:(discriminate);
    (destruct (negb _ && negb _ && negb _); cbn beta iota; [discriminate|]);
    intros [= <- <-]; cbn;
    (eexists; split; [reflexivity|]; cbn; repeat split;
     [intros ->; reflexivity | intros Hmono; apply Hmono; lia]).
Qed.

(** C5 as amended, under the clock that stands still: both reads agree
    and the new thread has [bumped_at] equal to [created_at]. *)
Lemma C5_thread_timestamps_witness :
  exists th,
    threads (snd (run (create_post frozen_env "b" (text_form "hello" None))
                    seeded)) = threads seeded ++ [th] /\
    Thread.bumped_at th = Thread.created_at th.
Proof.
  destruct (@C5_thread_timestamps frozen_env "b" (text_form "hello" None)
              seeded _ 1 eq_refl eq_refl)
    as (th & Hth & _ & _ & _ & Heq & _).
  exists th. split; [exact Hth|exact (Heq eq_refl)].
Defined.

(** ** File names *)

Lemma contains_dot_rsplit (s : string) :
  Py.contains "." s = true -> exists ext, Py.rsplit_dot_1 s = Some ext.
Proof.
  unfold Py.rsplit_dot_1.
  induction s as [|c r IH]; cbn [Py.contains Py.rsplit_dot];
    [discriminate|].
  destruct (Py.rsplit_dot r) as [[a b]|].
  - intros _. exists b. reflexivity.
  - rewrite Ascii.eqb_sym. destruct (Ascii.eqb c ".").
    + intros _. eexists; reflexivity.
    + rewrite orb_false_l. intros H. destruct (IH H) as [ext Hext].
      discriminate.
Qed.

(** [allowed_file] refuses exactly the names without an allowed
    extension. *)
Lemma allowed_file_false (filename : string) :
  allowed_file filename = false <-> no_allowed_extension filename.
Proof.
  unfold allowed_file, no_allowed_extension. split.
  - intros H. destruct (Py.contains "." filename) eqn:Hdot; [right|left; auto].
    destruct (contains_dot_rsplit _ Hdot) as [ext Hext].
    exists ext. split; [assumption|]. rewrite Hext in H. cbn [andb] in H.
    intros Hin.
    assert (Hex : existsb (String.eqb (Py.lower ext)) ALLOWED_EXTENSIONS
                  = true).
    { apply existsb_exists. exists (Py.lower ext).
      split; [assumption|apply String.eqb_refl]. }
    congruence.
  - intros [->|[ext [-> Hnin]]]; [reflexivity|].
    apply andb_false_iff. right.
    destruct (existsb _ _) eqn:Hex; [|reflexivity].
    apply existsb_exists in Hex. destruct Hex as [x [Hx Heq]].
    apply String.eqb_eq in Heq. subst x. contradiction.
Qed.

Lemma not_accepted (f : FileStorage.t) :
  allowed_file (FileStorage.filename f) = false -> accepted (Some f) = false.
Proof.
  intros H. unfold accepted. rewrite H. apply andb_false_r.
Qed.

(** C6.  In a body within [MAX_CONTENT_LENGTH], a file whose name has no
    extension, or an extension outside the allow-list, is dropped without
    an error: [create_post] answers and leaves the world exactly as for
    the same form without the file, in any body within the limit.  In
    particular, whenever the post is acceptable without a file, the request
    succeeds, nothing is written to the upload directory, and the post that
    is created has [filename], [original_filename] and [file_size] all
    [None]. *)
Theorem C6_disallowed_file_dropped (E : Env) (board_name : string)
    (form : PostForm.t) (f : FileStorage.t) (w : World)
    (content_length : Z) :
  PostForm.file form = Some f ->
  no_allowed_extension (FileStorage.filename f) ->
  within_limit form ->
  content_length <= MAX_CONTENT_LENGTH ->
  run (create_post E board_name form) w =
    run (create_post E board_name (without_file form content_length)) w /\
  (postable board_name form w ->
   exists tid p w',
     run (create_post E board_name form) w =
       (Redirect None (thread_view_url board_name tid), w') /\
     posts w' = posts w ++ [p] /\
     Post.thread_id p = tid /\
     Post.filename p = None /\
     Post.original_filename p = None /\
     Post.file_size p = None /\
     uploads w' = uploads w).
Proof.
  intros Hfile Hext Hlimit Hlimit'. apply allowed_file_false in Hext.
  pose proof (not_accepted f Hext) as Hacc.
  apply within_limit_passes in Hlimit.
  assert (Hpass : (content_length >? MAX_CONTENT_LENGTH) = false)
    by (destruct (Z.gtb_spec content_length MAX_CONTENT_LENGTH);
        [lia|reflexivity]).
  unfold postable, without_file. unfold_handlers. rewrite Hfile.
  cbn [PostForm.name PostForm.email PostForm.subject PostForm.comment
       PostForm.thread_id PostForm.file PostForm.content_length
       PostForm.thread_id_is_int].
  rewrite Hacc, Hlimit, Hpass.
  split; [reflexivity|].
  intros [Hboard Hok].
  destruct (first (boards_by_name board_name w)) as [board|];
    [clear Hboard|contradiction].
  destruct (PostForm.thread_id form) as [tid|].
  - destruct Hok as [Hint [th [Hth Hlock]]]. cbn beta iota.
    rewrite Hth. cbn beta iota. rewrite Hlock, Hint. cbn.
    eexists _, _, _. repeat split.
  - assert (Hgo : negb (Py.truthy (form_get (PostForm.subject form) "")) &&
                  negb (Py.truthy (form_get (PostForm.comment form) "")) &&
                  negb (Py.truthy_opt None) = false).
    { destruct Hok as [-> | ->]; cbn; [reflexivity|].
      apply andb_false_iff. left. apply andb_false_r. }
    cbn beta iota. rewrite Hgo. cbn.
    eexists _, _, _. repeat split.
Qed.

(** C6 on the sample: a first post "hello" with the file [cat.exe]. *)
Lemma C6_disallowed_file_dropped_witness :
  run (create_post ticking_env "b" (file_form "hello" None "cat.exe")) seeded
  = run (create_post ticking_env "b" (text_form "hello" None)) seeded /\
  exists p,
    posts (snd (run (create_post ticking_env "b"
                       (file_form "hello" None "cat.exe")) seeded)) = [p] /\
    Post.filename p = None /\ Post.original_filename p = None /\
    Post.file_size p = None.
Proof.
  assert (Hext : no_allowed_extension "cat.exe").
  { right. exists "exe". split; [reflexivity|].
    cbn. intros H. repeat destruct H as [H|H]; try discriminate H; exact H. }
  assert (Hok : postable "b" (file_form "hello" None "cat.exe") seeded).
  { split; [discriminate|]. right. reflexivity. }
  destruct (@C6_disallowed_file_dropped ticking_env "b"
              (file_form "hello" None "cat.exe") _ seeded 256 eq_refl Hext)
    as [Hsame Hpost]; [unfold within_limit; cbn; lia|cbn; lia|].
  split; [exact Hsame|].
  destruct (Hpost Hok) as (tid & p & w' & Hrun & Hp & _ & Hf & Ho & Hs & _).
  exists p. rewrite Hrun. cbn [snd]. rewrite Hp.
  split; [reflexivity|]. split; [exact Hf|]. split; [exact Ho|exact Hs].
Defined.

Lemma app_one_neq (A : Type) (l : list A) (x : A) : l <> l ++ [x].
Proof.
  intros H. apply (f_equal (@List.length A)) in H.
  rewrite length_app in H. cbn in H. lia.
Qed.

(** C7 fails as stated: a name field that is present and empty is stored
    as the empty string, not as "Anonymous". *)
Lemma C7_counterexample :
  exists p,
    posts (snd (run (create_post ticking_env "b" blank_name_form) seeded))
    = [p] /\
    Post.name p = "" /\ Post.name p <> "Anonymous".
Proof.
  eexists. split; [reflexivity|]. cbn. split; [reflexivity|discriminate].
Qed.

(** C7, amended.  The post that [create_post] adds carries the name
    "Anonymous" when the form has no name field, and otherwise the value of
    the name field as it was sent. *)
Theorem C7_name_default (E : Env) (board_name : string) (form : PostForm.t)
    (w w' : World) (r : Response) (p : Post.t) :
  run (create_post E board_name form) w = (r, w') ->
  posts w' = posts w ++ [p] ->
  (PostForm.name form = None -> Post.name p = "Anonymous") /\
  (forall s, PostForm.name form = Some s -> Post.name p = s).
Proof.
  intros Hrun Hp.
  assert (Hname : Post.name p = form_get (PostForm.name form) "Anonymous").
  { revert Hrun Hp. unfold_handlers.
    destruct (first (boards_by_name board_name w)) as [board|];
      [|intros [= <- <-] Hp; destruct (@app_one_neq _ _ _ Hp)].
    upload_cases form
      ltac:(intros [= <- <-] Hp; destruct (@app_one_neq _ _ _ Hp));
      (destruct (PostForm.thread_id form) as [tid|]; cbn beta iota;
       [ lookup_in w tid;
         destruct (thread_get tid w) as [th|]; cbn beta iota;
         [|intros [= <- <-] Hp; destruct (@app_one_neq _ _ _ Hp)];
         destruct (Thread.is_locked th); url_cases form
       | destruct (negb _ && negb _ && negb _); cbn beta iota ];
       intros [= <- <-]; cbn; intros Hp;
       first [ destruct (@app_one_neq _ _ _ Hp)
             | apply app_inv_head in Hp; injection Hp as <-; reflexivity ]). }
  rewrite Hname. split.
  - intros ->. reflexivity.
  - intros s ->. reflexivity.
Qed.

(** C7 as amended, on the samples: the first post "hello" without a name
    field is stored as "Anonymous", the one with a blank name field with
    the blank name. *)
Lemma C7_name_default_witness :
  (exists p,
     posts one_thread = posts seeded ++ [p] /\ Post.name p = "Anonymous") /\
  (exists p,
     posts (snd (run (create_post ticking_env "b" blank_name_form) seeded))
     = posts seeded ++ [p] /\ Post.name p = "").
Proof.
  split.
  - eexists. split; [reflexivity|].
    eapply (fun H1 H2 => proj1 (@C7_name_default ticking_env "b"
                                  (text_form "hello" None) seeded one_thread
                                  _ _ H1 H2)); reflexivity.
  - eexists. split; [reflexivity|].
    eapply (fun H1 H2 => proj2 (@C7_name_default ticking_env "b"
                                  blank_name_form seeded _ _ _ H1 H2));
      reflexivity.
Defined.




(** ** The upload directory *)

(** A generated file name is never empty: it has a dot. *)
Lemma generated_name_truthy (u ext : string) :
  Py.truthy (u ++ "." ++ ext)%string = true.
Proof. destruct u; reflexivity. Qed.

Lemma save_In (path : string) (bytes : list Byte.byte)
    (dir : list (string * list Byte.byte)) :
  In (path, bytes) (save path bytes dir).
Proof. left. reflexivity. Qed.

(** A request that ends with the flash of the thread validation leaves the
    whole world, upload directory included, as it was. *)
Lemma validation_error_world (E : Env) (board_name : string)
    (form : PostForm.t) (w w' : World) :
  run (create_post E board_name form) w = (ValidationError board_name, w') ->
  w' = w.
Proof.
  unfold_handlers. unfold ValidationError.
  destruct (first (boards_by_name board_name w)) as [board|];
    [|discriminate].
  upload_cases form ltac:(discriminate);
    (destruct (PostForm.thread_id form) as [tid|]; cbn beta iota;
     [ lookup_in w tid;
       destruct (thread_get tid w) as [th|]; cbn beta iota; [|discriminate];
       destruct (Thread.is_locked th); url_cases form; discriminate
     | cbn [Py.truthy_opt]; rewrite ?generated_name_truthy;
       cbn [negb]; rewrite ?andb_false_r;
       try (destruct (negb _ && negb _ && true); cbn beta iota);
       first [discriminate | intros [= <-]; reflexivity] ]).
Qed.

(** C9 fails as stated in its second case: no request that ends with the
    validation flash leaves a file behind.  The sample request, an empty
    first post with the file [cat.exe], ends that way with an empty upload
    directory. *)
Lemma C9_counterexample :
  (fst (run (create_post ticking_env "g" (file_form "" None "cat.exe")) seeded)
   = ValidationError "g" /\
   uploads (snd (run (create_post ticking_env "g"
                        (file_form "" None "cat.exe")) seeded)) = []) /\
  ~ exists E board_name form w w',
      run (create_post E board_name form) w = (ValidationError board_name, w')
      /\ uploads w' <> uploads w.
Proof.
  split; [split; reflexivity|].
  intros (E & board_name & form & w & w' & Hrun & Hneq).
  apply validation_error_world in Hrun. subst w'. apply Hneq. reflexivity.
Qed.

(** C9, amended.  When a post on an existing board, in a body within
    [MAX_CONTENT_LENGTH], carries an accepted file and [generate_filename]
    does not raise, the file is in the upload directory at the end of the
    request whatever the checks that follow decide; so a reply that the
    lock check then rejects (with the Locked error, or with the
    [ValueError] of [url_for] when the thread id was not sent as an integer
    numeral) leaves the saved file although no table changes.  The thread
    validation never rejects such a request, and a request that it rejects
    leaves no file.  A body above the limit is answered with 413 and
    nothing is saved. *)
Theorem C9_file_saved_before_checks (E : Env) (board_name : string)
    (form : PostForm.t) (w w' : World) (r : Response) :
  run (create_post E board_name form) w = (r, w') ->
  (forall board f,
     first (boards_by_name board_name w) = Some board ->
     within_limit form ->
     PostForm.file form = Some f ->
     accepted (Some f) = true ->
     upload_raises E (Some f) = false ->
     (exists name,
        uploads w' = save (path_join UPLOAD_FOLDER name)
                       (FileStorage.stream f) (uploads w) /\
        In (path_join UPLOAD_FOLDER name, FileStorage.stream f) (uploads w')) /\
     (forall tid th,
        PostForm.thread_id form = Some tid ->
        thread_get tid w = Some th ->
        Thread.is_locked th = true ->
        r = (if PostForm.thread_id_is_int form then Locked board_name tid
             else ValueError) /\
        threads w' = threads w /\ posts w' = posts w) /\
     r <> ValidationError board_name) /\
  (r = ValidationError board_name -> uploads w' = uploads w) /\
  (forall board,
     first (boards_by_name board_name w) = Some board ->
     MAX_CONTENT_LENGTH < PostForm.content_length form ->
     r = Abort 413 /\ w' = w).
Proof.
  intros Hrun. split; [|split].
  - intros board f Hboard Hlimit Hfile Hacc Hraise.
    apply within_limit_passes in Hlimit.
    unfold upload_raises in Hraise. rewrite Hacc in Hraise.
    cbn [andb] in Hraise.
    revert Hrun. unfold_handlers. unfold Locked, ValidationError.
    rewrite Hboard, Hlimit, Hfile, Hacc.
    destruct (Py.rsplit_dot_1 _) as [e|]; [clear Hraise|discriminate].
    cbn beta iota.
    destruct (PostForm.thread_id form) as [tid|]; cbn beta iota.
    + unfold thread_get at 1; cbn [threads set_uploads set_uuid_reads].
      fold (thread_get tid w).
      destruct (thread_get tid w) as [th|] eqn:Hth; cbn beta iota.
      * destruct (Thread.is_locked th) eqn:Hlock; url_cases form;
          intros [= <- <-]; cbn;
          (split; [eexists; split; [reflexivity|apply save_In]|]);
          (split; [|discriminate]);
          intros tid' th' [= <-] Hth' Hl;
          rewrite Hth in Hth'; injection Hth' as <-;
          first [congruence | auto].
      * intros [= <- <-]; cbn.
        split; [eexists; split; [reflexivity|apply save_In]|].
        split; [|discriminate].
        intros tid' th' [= <-] Hth'. congruence.
    + cbn [Py.truthy_opt]. rewrite generated_name_truthy.
      cbn [negb]. rewrite andb_false_r. cbn beta iota.
      intros [= <- <-]; cbn.
      split; [eexists; split; [reflexivity|apply save_In]|].
      split; [|discriminate].
      intros tid' th' [=].
  - intros ->. apply validation_error_world in Hrun. rewrite Hrun.
    reflexivity.
  - intros board Hboard Hover. revert Hrun. unfold_handlers.
    rewrite Hboard.
    destruct (Z.gtb_spec (PostForm.content_length form) MAX_CONTENT_LENGTH);
      [|lia].
    intros [= <- <-]. split; reflexivity.
Qed.

(** C9 as amended, on the samples: the reply with [cat.png] to the locked
    thread is rejected and the file is in the upload directory; the empty
    first post with [cat.exe] is rejected and the directory is as before;
    the reply above the limit is answered with 413. *)
Lemma C9_file_saved_before_checks_witness :
  (fst (run (create_post ticking_env "b"
               (file_form "reply" (Some 1) "cat.png")) locked_thread)
   = Locked "b" 1 /\
   In ("static/uploads/3f2b8c1d.png",
       [Byte.x89; Byte.x50; Byte.x4e; Byte.x47])
      (uploads (snd (run (create_post ticking_env "b"
                            (file_form "reply" (Some 1) "cat.png"))
                       locked_thread))) /\
   posts (snd (run (create_post ticking_env "b"
                      (file_form "reply" (Some 1) "cat.png")) locked_thread))
   = posts locked_thread) /\
  uploads (snd (run (create_post ticking_env "g"
                       (file_form "" None "cat.exe")) seeded))
  = uploads seeded /\
  run (create_post ticking_env "b" (oversized_form (Some 1))) locked_thread
  = (Abort 413, locked_thread).
Proof.
  split; [|split].
  - destruct (@C9_file_saved_before_checks ticking_env "b"
                (file_form "reply" (Some 1) "cat.png") locked_thread _ _
                eq_refl)
      as [Hsaved _].
    destruct (Hsaved (Board.mk 1 "b" "Random" "Random discussions") _
                eq_refl ltac:(unfold within_limit; cbn; lia)
                eq_refl eq_refl eq_refl)
      as ((name & Hup & Hin) & Hlock & _).
    destruct (Hlock 1 (Thread.mk 1 1 "No Subject" 1700000000 1700000001
                         false true) eq_refl eq_refl eq_refl)
      as (Hr & _ & Hp).
    split; [exact Hr|]. split; [|exact Hp].
    left. reflexivity.
  - exact (proj1 (proj2 (@C9_file_saved_before_checks ticking_env "g"
                           (file_form "" None "cat.exe") seeded _ _ eq_refl))
             eq_refl).
  - destruct (proj2 (proj2 (@C9_file_saved_before_checks ticking_env "b"
                              (oversized_form (Some 1)) locked_thread _ _
                              eq_refl))
                (Board.mk 1 "b" "Random" "Random discussions") eq_refl
                ltac:(cbn; lia)) as [Hr Hw].
    exact (f_equal2 pair Hr Hw).
Defined.

Lemma bump_found (tid v : Z) (ts : list Thread.t) (th : Thread.t) :
  find (fun t => Thread.id t =? tid) ts = Some th ->
  find (fun t => Thread.id t =? tid) (bump tid v ts) =
  Some (Thread.set_bumped_at v th).
Proof.
  unfold bump. induction ts as [|t r IH]; cbn [map find]; [discriminate|].
  destruct (Thread.id t =? tid) eqn:Hid.
  - intros [= <-]. cbn [Thread.set_bumped_at Thread.id]. rewrite Hid.
    reflexivity.
  - rewrite Hid. exact IH.
Qed.

(** In a reply the board of the route only names the redirect: two
    existing boards give the same world. *)
Lemma reply_world_any_board (E : Env) (name1 name2 : string)
    (board1 board2 : Board.t) (form : PostForm.t) (tid : Z) (w : World) :
  first (boards_by_name name1 w) = Some board1 ->
  first (boards_by_name name2 w) = Some board2 ->
  PostForm.thread_id form = Some tid ->
  snd (run (create_post E name1 form) w) =
  snd (run (create_post E name2 form) w).
Proof.
  intros H1 H2 Htid. unfold_handlers. rewrite H1, H2, Htid.
  upload_cases form ltac:(reflexivity);
    try (unfold thread_get at 1 2; cbn [threads set_uploads set_uuid_reads];
         fold (thread_get tid w));
    (destruct (thread_get tid w) as [th|]; cbn beta iota; [|reflexivity]);
    destruct (Thread.is_locked th); url_cases form; reflexivity.
Qed.

(** C10 fails as stated for a thread that is locked: thread 1 of
    [locked_thread] is on board [b], whose key is 1, and the reply sent to
    the post route of board [g], whose key is 2, is not accepted; it is
    answered with the Locked error and the world is as before. *)
Lemma C10_counterexample :
  option_map Thread.board_id (thread_get 1 locked_thread) = Some 1 /\
  option_map Board.id (first (boards_by_name "g" locked_thread)) = Some 2 /\
  option_map Thread.is_locked (thread_get 1 locked_thread) = Some true /\
  run (create_post ticking_env "g" (text_form "reply" (Some 1))) locked_thread
  = (Locked "g" 1, locked_thread).
Proof. repeat split. Qed.

(** C10, amended.  [create_post] finds the thread of a reply by
    [thread_id] alone.  A reply sent to the post route of an existing board
    [board_name], in a body within [MAX_CONTENT_LENGTH] and with an upload
    step that does not raise, to a thread that exists on another board and
    is not locked, is added to that thread: its post number is 1 when the
    thread has no post, and otherwise one more than the largest post number
    of the thread; the thread's [bumped_at] is set to the time of the
    reply.  The response is the redirect to the thread under [board_name]
    when the thread id was sent as an integer numeral, and otherwise the
    [ValueError] of [url_for], raised after the post is added.  The world
    that results is the same whichever existing board the route names. *)
Theorem C10_reply_across_boards (E : Env) (board_name : string)
    (form : PostForm.t) (w w' : World) (r : Response) (board : Board.t)
    (tid : Z) (th : Thread.t) :
  first (boards_by_name board_name w) = Some board ->
  PostForm.thread_id form = Some tid ->
  thread_get tid w = Some th ->
  Thread.board_id th <> Board.id board ->
  Thread.is_locked th = false ->
  within_limit form ->
  upload_raises E (PostForm.file form) = false ->
  run (create_post E board_name form) w = (r, w') ->
  r = (if PostForm.thread_id_is_int form
       then Redirect None (thread_view_url board_name tid)
       else ValueError) /\
  (exists p,
     posts w' = posts w ++ [p] /\
     Post.thread_id p = tid /\
     (posts_by_thread tid w = [] -> Post.post_number p = 1) /\
     (forall q, In q (posts_by_thread tid w) ->
                Post.post_number q < Post.post_number p) /\
     (posts_by_thread tid w <> [] ->
      exists q, In q (posts_by_thread tid w) /\
                Post.post_number p = Post.post_number q + 1)) /\
  thread_get tid w' =
    Some (Thread.set_bumped_at (utcnow E (clock_reads w)) th) /\
  (forall other_name other,
     first (boards_by_name other_name w) = Some other ->
     snd (run (create_post E other_name form) w) = w').
Proof.
  intros Hboard Htid Hth _ Hlock Hlimit Hraise Hrun.
  apply within_limit_passes in Hlimit.
  assert (Hmain :
    r = (if PostForm.thread_id_is_int form
         then Redirect None (thread_view_url board_name tid)
         else ValueError) /\
    (exists p,
       posts w' = posts w ++ [p] /\
       Post.thread_id p = tid /\
       Post.post_number p = get_next_post_number tid w) /\
    thread_get tid w' =
      Some (Thread.set_bumped_at (utcnow E (clock_reads w)) th)).
  { revert Hrun. unfold upload_raises in Hraise.
    assert (Hfound : forall w1, threads w1 = threads w ->
              thread_get tid w1 = Some th)
      by (intros w1 H1; rewrite (thread_get_threads tid _ _ H1); exact Hth).
    unfold_handlers. rewrite Hboard, Hlimit, Htid.
    destruct (PostForm.file form) as [f|]; cbn beta iota;
      [destruct (accepted (Some f)); cbn beta iota;
       [cbn [andb] in Hraise;
        destruct (Py.rsplit_dot_1 _) as [e|]; cbn beta iota;
        [|discriminate]|]|];
      rewrite Hfound by reflexivity; cbn beta iota; rewrite Hlock;
      url_cases form;
      intros [= <- <-]; cbn;
      (split; [reflexivity|]);
      (split; [eexists; repeat split|]);
      apply bump_found, Hth. }
  destruct Hmain as (Hr & (p & Hp & Hpt & Hn) & Hb).
  destruct (get_next_post_number_max tid w) as [Hnil Hcons].
  split; [exact Hr|]. split; [|split; [exact Hb|]].
  - exists p. split; [exact Hp|]. split; [exact Hpt|]. rewrite Hn.
    split; [exact Hnil|]. split.
    + intros q Hq.
      assert (Hne : posts_by_thread tid w <> [])
        by (intros Hnone; rewrite Hnone in Hq; destruct Hq).
      destruct (Hcons Hne) as [_ Hmax]. specialize (Hmax q Hq). lia.
    + intros Hne. destruct (Hcons Hne) as [Hex _]. exact Hex.
  - intros other_name other Hother.
    rewrite (@reply_world_any_board E other_name board_name other board form
               tid w Hother Hboard Htid), Hrun.
    reflexivity.
Qed.

(** C10 as amended, on the sample: thread 1 is on board [b] and has one
    post, numbered 1; a reply sent to the route of board [g] is added to it
    as post 2 and bumps it. *)
Lemma C10_reply_across_boards_witness :
  fst (run (create_post ticking_env "g" (text_form "reply" (Some 1)))
         one_thread) = Redirect None (thread_view_url "g" 1) /\
  (exists p,
     posts (snd (run (create_post ticking_env "g"
                        (text_form "reply" (Some 1))) one_thread))
     = posts one_thread ++ [p] /\
     Post.post_number p = 2) /\
  option_map Thread.bumped_at
    (thread_get 1 (snd (run (create_post ticking_env "g"
                               (text_form "reply" (Some 1))) one_thread)))
  = Some 1700000003.
Proof.
  assert (Hother : 1 <> 2) by discriminate.
  destruct (@C10_reply_across_boards ticking_env "g"
              (text_form "reply" (Some 1)) one_thread _ _
              (Board.mk 2 "g" "Technology" "Technology discussions") 1
              (Thread.mk 1 1 "No Subject" 1700000000 1700000001 false false)
              eq_refl eq_refl eq_refl Hother eq_refl
              ltac:(unfold within_limit; cbn; lia) eq_refl eq_refl)
    as (Hr & (p & Hp & _ & _ & _ & Hnext) & Hbump & _).
  split; [exact Hr|]. split.
  - exists p. split; [exact Hp|].
    destruct Hnext as (q & Hq & Hn); [discriminate|].
    destruct Hq as [<-|[]]. exact Hn.
  - exact (f_equal (option_map Thread.bumped_at) Hbump).
Defined.

(** ** One request at a time *)

Lemma first_filter_In (A : Type) (f : A -> bool) (l : list A) (x : A) :
  first (filter f l) = Some x -> In x l /\ f x = true.
Proof.
  intros H. apply filter_In. destruct (filter f l) as [|y r]; [discriminate|].
  injection H as ->. left. reflexivity.
Qed.

Lemma first_filter_none (A : Type) (f : A -> bool) (l : list A) :
  first (filter f l) = None -> forall x, In x l -> f x = false.
Proof.
  intros H x Hx. destruct (f x) eqn:Hf; [|reflexivity].
  assert (Hin : In x (filter f l)) by (apply filter_In; auto).
  destruct (filter f l); [contradiction|discriminate].
Qed.

Lemma or_else_truthy (s d : string) :
  Py.truthy d = true -> Py.truthy (Py.or_else s d) = true.
Proof.
  intros Hd. unfold Py.or_else. destruct (Py.truthy s) eqn:Hs; assumption.
Qed.

(** What a request to [create_post] changes. *)
Lemma create_post_change (E : Env) (board_name : string) (form : PostForm.t)
    (w : World) :
  change E w (snd (run (create_post E board_name form) w)).
Proof.
  unfold_handlers.
  destruct (first (boards_by_name board_name w)) as [board|] eqn:Hboard;
    [|apply change_none; reflexivity].
  apply first_filter_In in Hboard. destruct Hboard as [Hboard _].
  upload_cases form ltac:(apply change_none; reflexivity);
    (destruct (PostForm.thread_id form) as [tid|]; cbn beta iota;
     [ lookup_in w tid;
       destruct (thread_get tid w) as [th|] eqn:Hth; cbn beta iota;
       [|apply change_none; reflexivity];
       destruct (Thread.is_locked th) eqn:Hlock; url_cases form;
       first
         [ apply change_none; reflexivity
         | eapply change_reply with (tid := tid); cbn; try reflexivity;
           eassumption ]
     | destruct (negb _ && negb _ && negb _); cbn beta iota;
       [apply change_none; reflexivity|];
       eapply change_thread with (board := board); cbn; try reflexivity;
       try assumption; apply or_else_truthy; reflexivity ]).
Qed.

(** What a request to [create_board] changes. *)
Lemma create_board_change (E : Env) (method : Method) (form : BoardForm.t)
    (w : World) :
  change E w (snd (run (create_board method form) w)).
Proof.
  unfold run, create_board, form_item, bind, ret, leave, get_world, modify.
  destruct method; [apply change_none; reflexivity|].
  destruct (BoardForm.name form) as [name|];
    [|apply change_none; reflexivity].
  destruct (BoardForm.title form) as [title|];
    [|apply change_none; reflexivity].
  cbn beta iota.
  destruct (first (boards_by_name name w)) eqn:Hfree;
    [apply change_none; reflexivity|].
  eapply change_board; cbn; try reflexivity. exact Hfree.
Qed.

Lemma handle_change (E : Env) (rq : Request) (w : World) :
  change E w (snd (run (handle E rq) w)).
Proof.
  destruct rq as [board_name form|method form|board_name page];
    cbn [handle].
  - apply create_post_change.
  - apply create_board_change.
  - rewrite board_view_world. apply change_none; reflexivity.
Qed.

(** ** Invariants of histories *)

Lemma NoDup_snoc (A : Type) (l : list A) (x : A) :
  NoDup l -> ~ In x l -> NoDup (l ++ [x]).
Proof.
  intros Hl Hx. apply NoDup_app; [assumption|repeat constructor; auto|].
  intros a Ha [<-|[]]. contradiction.
Qed.

Lemma next_id_not_in (ids : list Z) : ~ In (next_id ids) ids.
Proof. intros H. apply next_id_fresh in H. lia. Qed.

Lemma bump_fixed_columns (tid v : Z) (ts : list Thread.t) :
  map fixed_columns (bump tid v ts) = map fixed_columns ts.
Proof.
  unfold bump. rewrite map_map. apply map_ext.
  intros th. destruct (Thread.id th =? tid); reflexivity.
Qed.

(** A row of a bumped table is a row of the table before, bumped or
    not. *)
Lemma bump_In (tid v : Z) (ts : list Thread.t) (th' : Thread.t) :
  In th' (bump tid v ts) ->
  exists th, In th ts /\ fixed_columns th' = fixed_columns th /\
             (th' = th \/ (Thread.id th = tid /\ Thread.bumped_at th' = v)).
Proof.
  unfold bump. rewrite in_map_iff. intros [th [<- Hin]].
  exists th. split; [assumption|].
  destruct (Thread.id th =? tid) eqn:Hid.
  - split; [reflexivity|]. right. apply Z.eqb_eq in Hid. auto.
  - auto.
Qed.

Lemma keys_unique_change (E : Env) (w w' : World) :
  change E w w' -> keys_unique w -> keys_unique w'.
Proof.
  unfold keys_unique.
  intros Hc (Hbi & Hbn & Hti & Hpi).
  destruct Hc as [Hb Ht Hp _
                 |b Hb Hid Hfree Ht Hp _ _
                 |board th p Hb _ Ht Hid _ _ _ _ _ _ Hp Hpid _ _ _ _
                 |tid th p Hb _ _ Ht Hp Hpid _ _ _ _].
  - rewrite Hb, Ht, Hp. auto.
  - rewrite Hb, Ht, Hp, !map_app. cbn [map].
    repeat split; try assumption.
    + apply NoDup_snoc; [assumption|]. rewrite Hid. apply next_id_not_in.
    + apply NoDup_snoc; [assumption|]. rewrite in_map_iff.
      intros [x [Hname Hx]].
      pose proof (first_filter_none _ _ Hfree x Hx) as Hne.
      cbn in Hne. rewrite Hname, String.eqb_refl in Hne. discriminate.
  - rewrite Hb, Ht, Hp, !map_app. cbn [map].
    repeat split; try assumption.
    + apply NoDup_snoc; [assumption|]. rewrite Hid. apply next_id_not_in.
    + apply NoDup_snoc; [assumption|]. rewrite Hpid. apply next_id_not_in.
  - rewrite Hb, Ht, Hp, bump_ids, map_app. cbn [map].
    repeat split; try assumption.
    apply NoDup_snoc; [assumption|]. rewrite Hpid. apply next_id_not_in.
Qed.

(** X1.  Along every history the keys of the boards, of the threads and
    of the posts stay unique, and so do the names of the boards: no request
    inserts a row under a key in use, and [create_board] never adds a
    second board of a name. *)
Theorem X1_keys_stay_unique (E : Env) (w0 w : World) :
  served E w0 w -> keys_unique w0 -> keys_unique w.
Proof.
  induction 1 as [|w rq Hs IH]; intros H0; [assumption|].
  eapply keys_unique_change; [apply handle_change|apply IH, H0].
Qed.

Lemma served_crossed : served ticking_env seeded crossed.
Proof.
  apply (@served_request ticking_env seeded one_thread
           (post_request "g" (text_form "reply" (Some 1)))).
  apply (@served_request ticking_env seeded seeded
           (post_request "b" (text_form "hello" None))).
  apply served_start.
Qed.

(** X1 on the sample history of two posts. *)
Lemma X1_keys_stay_unique_witness : keys_unique crossed.
Proof.
  apply (@X1_keys_stay_unique ticking_env seeded crossed served_crossed).
  unfold keys_unique. cbn.
  repeat split; repeat constructor; cbn; intuition discriminate.
Defined.

(** X2.  The tables only grow, and what is in them stays: along every
    history the boards and the posts of the start are a prefix of the
    boards and the posts of the end, unchanged; the threads of the start
    are there in place with the same key, board, subject, [created_at] and
    flags (only [bumped_at] is written again); and the threads that were
    added are not pinned, not locked, and have a subject that is not
    empty. *)
Theorem X2_tables_only_grow (E : Env) (w0 w : World) :
  served E w0 w ->
  (exists bs, boards w = boards w0 ++ bs) /\
  (exists ps, posts w = posts w0 ++ ps) /\
  (exists ts,
     map fixed_columns (threads w) =
       map fixed_columns (threads w0) ++ map fixed_columns ts /\
     forall th, In th ts ->
       Thread.is_pinned th = false /\ Thread.is_locked th = false /\
       Py.truthy (Thread.subject th) = true).
Proof.
  induction 1 as [|w rq Hs (Hbs & Hps & Hts)].
  - split; [exists []; symmetry; apply app_nil_r|].
    split; [exists []; symmetry; apply app_nil_r|].
    exists []. split; [symmetry; apply app_nil_r|]. intros th [].
  - destruct Hbs as [bs Hbs], Hps as [ps Hps], Hts as (ts & Hts & Hnew).
    destruct (handle_change E rq w)
      as [Hb Ht Hp _
         |b Hb _ _ Ht Hp _ _
         |board th p Hb _ Ht _ _ Hsub _ _ Hpin Hlock Hp _ _ _ _ _
         |tid th p Hb _ _ Ht Hp _ _ _ _ _];
      rewrite Hb, Ht, Hp.
    + eauto 10.
    + split; [exists (bs ++ [b]); rewrite Hbs, app_assoc; reflexivity|].
      eauto 10.
    + split; [eauto|].
      split; [exists (ps ++ [p]); rewrite Hps, app_assoc; reflexivity|].
      exists (ts ++ [th]). split.
      * rewrite !map_app, Hts, app_assoc. reflexivity.
      * intros t Hin. apply in_app_or in Hin.
        destruct Hin as [Hin|[<-|[]]]; auto.
    + split; [eauto|].
      split; [exists (ps ++ [p]); rewrite Hps, app_assoc; reflexivity|].
      exists ts. rewrite bump_fixed_columns. auto.
Qed.

(** X2 on the sample history: the two posts came after the start, the
    one thread was added. *)
Lemma X2_tables_only_grow_witness :
  exists ps, posts crossed = posts seeded ++ ps.
Proof.
  exact (proj1 (proj2 (@X2_tables_only_grow ticking_env seeded crossed
                         served_crossed))).
Defined.

(** ** The thread page *)

Lemma post_created_asc_total (a b : Post.t) :
  post_created_asc a b = false -> post_created_asc b a = true.
Proof.
  unfold post_created_asc. intros H.
  apply Z.leb_gt in H. apply Z.leb_le. lia.
Qed.

Lemma post_created_asc_trans (a b c : Post.t) :
  post_created_asc a b = true -> post_created_asc b c = true ->
  post_created_asc a c = true.
Proof.
  unfold post_created_asc. intros H1 H2.
  apply Z.leb_le in H1, H2. apply Z.leb_le. lia.
Qed.

Lemma order_by_nil (A : Type) (le : A -> A -> bool) (l : list A) :
  order_by le l = [] -> l = [].
Proof.
  intros H. pose proof (order_by_perm le l) as Hp. rewrite H in Hp.
  apply Permutation_nil in Hp. exact Hp.
Qed.

Lemma StronglySorted_weaken (A : Type) (R S : A -> A -> Prop) (l : list A) :
  (forall a b, R a b -> S a b) -> StronglySorted R l -> StronglySorted S l.
Proof.
  intros HRS. induction 1 as [|x r Hs IH Hall]; constructor.
  - exact IH.
  - eapply Forall_impl; [|exact Hall]. intros a. apply HRS.
Qed.

Lemma thread_view_page_nonempty (board_name : string) (tid : Z)
    (w w' : World) (page : ThreadPage.t) :
  thread_view board_name tid w = (Value page, w') ->
  ThreadPage.posts page <> [].
Proof.
  unfold thread_view, board_or_404, bind, ret, leave, get_world.
  destruct (first (boards_by_name board_name w)); [|discriminate].
  destruct (first (threads_by_id_and_board _ _ w)); [|discriminate].
  destruct (order_by _ _) as [|p ps]; [discriminate|].
  intros [= <- _]. discriminate.
Qed.

(** X3.  [thread_view] shows a thread only under its own board: when it
    renders, the board is the one of the name in the URL, the thread is a
    row with the key of the URL that belongs to that board, and the posts
    are all the posts of the thread, at least one, in ascending order of
    [created_at].  The request changes nothing. *)
Theorem X3_thread_view_page (board_name : string) (tid : Z) (w w' : World)
    (page : ThreadPage.t) :
  thread_view board_name tid w = (Value page, w') ->
  w' = w /\
  first (boards_by_name board_name w) = Some (ThreadPage.board page) /\
  In (ThreadPage.thread page) (threads w) /\
  Thread.id (ThreadPage.thread page) = tid /\
  Thread.board_id (ThreadPage.thread page) =
    Board.id (ThreadPage.board page) /\
  Permutation (ThreadPage.posts page) (posts_by_thread tid w) /\
  ThreadPage.posts page <> [] /\
  StronglySorted (fun a b => Post.created_at a <= Post.created_at b)
    (ThreadPage.posts page).
Proof.
  unfold thread_view, board_or_404, bind, ret, leave, get_world.
  destruct (first (boards_by_name board_name w)) as [board|];
    [|discriminate].
  destruct (first (threads_by_id_and_board tid (Board.id board) w))
    as [th|] eqn:Hth; [|discriminate].
  destruct (order_by post_created_asc (posts_by_thread tid w))
    as [|p ps] eqn:Hposts; [discriminate|].
  intros [= <- <-]. cbn [ThreadPage.board ThreadPage.thread ThreadPage.posts].
  apply first_filter_In in Hth. destruct Hth as [Hin Hkeys].
  apply andb_true_iff in Hkeys. destruct Hkeys as [Hid Hbid].
  apply Z.eqb_eq in Hid, Hbid.
  repeat split; try assumption; try reflexivity.
  - rewrite <- Hposts. apply order_by_perm.
  - discriminate.
  - rewrite <- Hposts.
    eapply StronglySorted_weaken;
      [|apply (order_by_sorted _ post_created_asc_total
                 post_created_asc_trans)].
    intros a b Hab. apply Z.leb_le. exact Hab.
Qed.

(** X3 on the sample: the page of thread 1 under board [b] shows its two
    posts. *)
Lemma X3_thread_view_page_witness :
  exists page,
    thread_view "b" 1 crossed = (Value page, crossed) /\
    Thread.board_id (ThreadPage.thread page) = 1 /\
    Permutation (ThreadPage.posts page) (posts_by_thread 1 crossed).
Proof.
  eexists. split; [reflexivity|].
  pose proof (@X3_thread_view_page "b" 1 crossed _ _ eq_refl)
    as (_ & _ & _ & _ & Hb & Hp & _).
  split; [exact Hb|exact Hp].
Defined.

(** What an accepted post did: the response of [create_post] is the
    redirect to the thread exactly when a post was added. *)
Lemma create_post_accepted (E : Env) (board_name : string)
    (form : PostForm.t) (w w' : World) (t : Z) :
  run (create_post E board_name form) w =
    (Redirect None (thread_view_url board_name t), w') ->
  boards w' = boards w /\
  exists board p,
    first (boards_by_name board_name w) = Some board /\
    posts w' = posts w ++ [p] /\
    Post.thread_id p = t /\
    match PostForm.thread_id form with
    | None =>
        exists th,
          threads w' = threads w ++ [th] /\
          Thread.id th = t /\
          t = next_id (map Thread.id (threads w)) /\
          Thread.board_id th = Board.id board /\
          Post.post_number p = 1
    | Some tid =>
        tid = t /\
        threads w' = bump t (utcnow E (clock_reads w)) (threads w) /\
        exists th, thread_get t w = Some th /\ Thread.is_locked th = false
    end.
Proof.
  unfold_handlers.
  destruct (first (boards_by_name board_name w)) as [board|];
    [|discriminate].
  upload_cases form ltac:(discriminate);
    (destruct (PostForm.thread_id form) as [tid|]; cbn beta iota;
     [ lookup_in w tid;
       destruct (thread_get tid w) as [th|] eqn:Hth; cbn beta iota;
       [|discriminate];
       destruct (Thread.is_locked th) eqn:Hlock; url_cases form;
       try discriminate;
       intros [= <- <-]; cbn; split; [reflexivity|];
       eexists board, _; repeat split; eauto
     | destruct (negb _ && negb _ && negb _); cbn beta iota;
       [discriminate|];
       intros [= <- <-]; cbn; split; [reflexivity|];
       eexists board, _; repeat split;
       eexists; repeat split ]).
Qed.

(** X4.  A reply that was accepted through the route of a board to which
    the thread does not belong (see C10) is answered with a redirect that
    leads nowhere: on the world after the reply, [thread_view] under that
    board and thread key is a 404. *)
Theorem X4_cross_board_redirect_404 (E : Env) (board_name : string)
    (form : PostForm.t) (w w' : World) (board : Board.t) (tid : Z)
    (th : Thread.t) :
  first (boards_by_name board_name w) = Some board ->
  thread_get tid w = Some th ->
  Thread.board_id th <> Board.id board ->
  NoDup (map Thread.id (threads w)) ->
  PostForm.thread_id form = Some tid ->
  run (create_post E board_name form) w =
    (Redirect None (thread_view_url board_name tid), w') ->
  thread_view board_name tid w' = (Exit (Abort 404), w').
Proof.
  intros Hboard Hth Hother Hnd Htid Hrun.
  apply create_post_accepted in Hrun.
  destruct Hrun as (Hb & board' & p & _ & _ & _ & Hreply).
  rewrite Htid in Hreply. destruct Hreply as (_ & Ht & _).
  unfold thread_view, board_or_404, bind, ret, leave, get_world.
  replace (first (boards_by_name board_name w')) with (Some board)
    by (unfold boards_by_name; rewrite Hb; symmetry; exact Hboard).
  destruct (first (threads_by_id_and_board tid (Board.id board) w'))
    as [th'|] eqn:Hfound; [exfalso|reflexivity].
  apply first_filter_In in Hfound. destruct Hfound as [Hin Hkeys].
  apply andb_true_iff in Hkeys. destruct Hkeys as [Hid Hbid].
  apply Z.eqb_eq in Hid, Hbid.
  rewrite Ht in Hin. apply bump_In in Hin.
  destruct Hin as (th0 & Hin0 & Hfix & _).
  unfold fixed_columns in Hfix. injection Hfix as Hid0 Hbid0 _ _ _ _.
  apply thread_get_some in Hth. destruct Hth as [Hin Hidth].
  assert (Hsame : th0 = th).
  { apply (NoDup_map_eq Thread.id (threads w)); try assumption. lia. }
  subst th0. apply Hother. lia.
Qed.

(** X4 on the sample: the reply to thread 1 of board [b] through board
    [g] redirects to [/g/thread/1], which is not found. *)
Lemma X4_cross_board_redirect_404_witness :
  thread_view "g" 1 crossed = (Exit (Abort 404), crossed).
Proof.
  assert (Hother : 1 <> 2) by discriminate.
  assert (Hnd : NoDup (map Thread.id (threads one_thread)))
    by (repeat constructor; cbn; intuition).
  exact (@X4_cross_board_redirect_404 ticking_env "g"
           (text_form "reply" (Some 1)) one_thread crossed
           (Board.mk 2 "g" "Technology" "Technology discussions") 1
           (Thread.mk 1 1 "No Subject" 1700000000 1700000001 false false)
           eq_refl eq_refl Hother Hnd eq_refl eq_refl).
Defined.

(** ** Threads of a reachable world *)

Lemma reachable_change (E : Env) (P : World -> Prop) :
  (forall w, threads w = [] -> posts w = [] -> P w) ->
  (forall w w', reachable E w -> P w -> change E w w' -> P w') ->
  forall w, reachable E w -> P w.
Proof.
  intros Hstart Hstep w Hr. induction Hr as [w Ht Hp|w rq Hr IH].
  - apply Hstart; assumption.
  - eapply Hstep; [exact Hr|exact IH|apply handle_change].
Qed.

Lemma app_not_nil (A : Type) (l r : list A) : l <> [] -> l ++ r <> [].
Proof. destruct l; [contradiction|discriminate]. Qed.

Lemma reachable_no_empty_thread (E : Env) (w : World) :
  reachable E w -> no_empty_thread w.
Proof.
  apply (reachable_change (E := E)); clear w.
  - intros w Ht _ th Hin. rewrite Ht in Hin. contradiction.
  - intros w w' _ IH Hc. unfold no_empty_thread in *.
    destruct Hc as [_ Ht Hp _
                   |b _ _ _ Ht Hp _ _
                   |board th p _ _ Ht _ _ _ _ _ _ _ Hp _ Hpt _ _ _
                   |tid th p _ _ _ Ht Hp _ _ _ _ _].
    + intros t. rewrite Ht, (posts_by_thread_same _ _ _ Hp). apply IH.
    + intros t. rewrite Ht, (posts_by_thread_same _ _ _ Hp). apply IH.
    + intros t Hin. rewrite (posts_by_thread_app _ _ _ _ Hp).
      rewrite Ht in Hin. apply in_app_or in Hin.
      destruct Hin as [Hin|[<-|[]]].
      * apply app_not_nil, IH, Hin.
      * rewrite Hpt, Z.eqb_refl. intros H. apply app_eq_nil in H.
        destruct H as [_ H]. discriminate.
    + intros t Hin. rewrite (posts_by_thread_app _ _ _ _ Hp).
      rewrite Ht in Hin. apply bump_In in Hin.
      destruct Hin as (t0 & Hin0 & Hfix & _).
      unfold fixed_columns in Hfix. injection Hfix as -> _ _ _ _ _.
      apply app_not_nil, IH, Hin0.
Qed.

Lemma reachable_bumped_in_past (E : Env) (w : World) :
  reachable E w -> bumped_in_past E w.
Proof.
  apply (reachable_change (E := E)); clear w.
  - intros w Ht _ th Hin. rewrite Ht in Hin. contradiction.
  - intros w w' _ IH Hc. unfold bumped_in_past in *.
    destruct Hc as [_ Ht _ Hk
                   |b _ _ _ Ht _ Hk _
                   |board th p _ _ Ht _ _ _ _ Hbump _ _ _ _ _ _ _ Hk
                   |tid th p _ _ _ Ht _ _ _ _ _ Hk];
      rewrite Hk.
    + intros t. rewrite Ht. apply IH.
    + intros t. rewrite Ht. apply IH.
    + intros t Hin. rewrite Ht in Hin. apply in_app_or in Hin.
      destruct Hin as [Hin|[<-|[]]].
      * destruct (IH t Hin) as [i [Hi Heq]]. exists i. split; [lia|exact Heq].
      * exists (S (clock_reads w)). split; [lia|exact Hbump].
    + intros t Hin. rewrite Ht in Hin. apply bump_In in Hin.
      destruct Hin as (t0 & Hin0 & _ & [->|[_ Hv]]).
      * destruct (IH t0 Hin0) as [i [Hi Heq]]. exists i. split; [lia|exact Heq].
      * exists (clock_reads w). split; [lia|exact Hv].
Qed.

Lemma filter_none (A : Type) (f : A -> bool) (l : list A) :
  (forall x, In x l -> f x = false) -> filter f l = [].
Proof.
  induction l as [|x r IH]; intros H; [reflexivity|].
  cbn [filter]. rewrite (H x) by (left; reflexivity).
  apply IH. intros y Hy. apply H. right. exact Hy.
Qed.

Lemma boards_by_name_boards (board_name : string) (w w' : World) :
  boards w' = boards w ->
  boards_by_name board_name w' = boards_by_name board_name w.
Proof. unfold boards_by_name. intros ->. reflexivity. Qed.

(** X5.  The redirect that answers a new thread leads to its page: in a
    reachable world, after [create_post] without [thread_id] answered with
    the redirect to thread [t], [thread_view] under the same board name
    renders thread [t] with exactly one post, the one just added, which has
    number 1. *)
Theorem X5_new_thread_page (E : Env) (board_name : string)
    (form : PostForm.t) (w w' : World) (t : Z) :
  reachable E w ->
  PostForm.thread_id form = None ->
  run (create_post E board_name form) w =
    (Redirect None (thread_view_url board_name t), w') ->
  exists page p,
    thread_view board_name t w' = (Value page, w') /\
    Thread.id (ThreadPage.thread page) = t /\
    posts w' = posts w ++ [p] /\
    ThreadPage.posts page = [p] /\
    Post.post_number p = 1.
Proof.
  intros Hreach Hnew Hrun.
  apply create_post_accepted in Hrun.
  destruct Hrun as (Hb & board & p & Hboard & Hp & Hpt & Hthread).
  rewrite Hnew in Hthread.
  destruct Hthread as (th & Ht & Hid & Hfresh & Hbid & Hnum).
  assert (Hnone : forall x, In x (threads w) -> Thread.id x <> t).
  { intros x Hx Heq.
    apply (next_id_not_in (map Thread.id (threads w))).
    rewrite <- Hfresh, <- Heq. apply in_map, Hx. }
  assert (Hfound : threads_by_id_and_board t (Board.id board) w' = [th]).
  { unfold threads_by_id_and_board. rewrite Ht, filter_app. cbn [filter].
    rewrite Hid, Hbid, !Z.eqb_refl. cbn [andb].
    rewrite filter_none; [reflexivity|].
    intros x Hx. apply andb_false_iff. left.
    apply Z.eqb_neq, Hnone, Hx. }
  assert (Hposts : posts_by_thread t w' = [p]).
  { rewrite (posts_by_thread_app _ _ _ _ Hp), Hpt, Z.eqb_refl.
    unfold posts_by_thread. rewrite filter_none; [reflexivity|].
    destruct (reachable_numbered Hreach) as [_ Hfk].
    intros q Hq. apply Z.eqb_neq. intros Heq.
    apply (next_id_not_in (map Thread.id (threads w))).
    rewrite <- Hfresh, <- Heq. apply Hfk, Hq. }
  exists (ThreadPage.mk board th [p]), p.
  unfold thread_view, board_or_404, bind, ret, leave, get_world.
  rewrite (boards_by_name_boards _ _ _ Hb), Hboard, Hfound, Hposts.
  cbn. auto.
Qed.

(** X5 on the sample: the first post on the seeded board. *)
Lemma X5_new_thread_page_witness :
  exists page p,
    thread_view "b" 1 one_thread = (Value page, one_thread) /\
    ThreadPage.posts page = [p] /\ Post.post_number p = 1.
Proof.
  assert (Hreach : reachable ticking_env seeded)
    by (apply reach_start; reflexivity).
  destruct (@X5_new_thread_page ticking_env "b" (text_form "hello" None)
              seeded one_thread 1 Hreach eq_refl eq_refl)
    as (page & p & Hview & _ & _ & Hposts & Hnum).
  exists page, p. auto.
Defined.

(** X6.  In a reachable world no thread is without posts, so the branch
    "Thread has no posts" of [thread_view] is never taken for a thread of
    the board: the page of every thread renders under the name of its
    board. *)
Theorem X6_thread_pages_render (E : Env) (w : World) (board_name : string)
    (board : Board.t) (th : Thread.t) :
  reachable E w ->
  first (boards_by_name board_name w) = Some board ->
  In th (threads w) ->
  Thread.board_id th = Board.id board ->
  posts_by_thread (Thread.id th) w <> [] /\
  exists page,
    thread_view board_name (Thread.id th) w = (Value page, w) /\
    Thread.id (ThreadPage.thread page) = Thread.id th.
Proof.
  intros Hreach Hboard Hin Hbid.
  pose proof (reachable_no_empty_thread Hreach th Hin) as Hposts.
  split; [exact Hposts|].
  unfold thread_view, board_or_404, bind, ret, leave, get_world.
  rewrite Hboard.
  destruct (first (threads_by_id_and_board (Thread.id th) (Board.id board) w))
    as [th0|] eqn:Hfound.
  - destruct (order_by post_created_asc (posts_by_thread (Thread.id th) w))
      as [|p ps] eqn:Hsorted.
    + apply order_by_nil in Hsorted. contradiction.
    + eexists. split; [reflexivity|]. cbn.
      apply first_filter_In in Hfound. destruct Hfound as [_ Hkeys].
      apply andb_true_iff in Hkeys. destruct Hkeys as [Hid _].
      apply Z.eqb_eq in Hid. exact Hid.
  - exfalso. pose proof (first_filter_none _ _ Hfound th Hin) as Hno.
    cbn in Hno. rewrite Hbid, !Z.eqb_refl in Hno. discriminate.
Qed.

Lemma reachable_crossed : reachable ticking_env crossed.
Proof.
  apply (@reach_request ticking_env one_thread
           (post_request "g" (text_form "reply" (Some 1)))).
  apply (@reach_request ticking_env seeded
           (post_request "b" (text_form "hello" None))).
  apply reach_start; reflexivity.
Qed.

(** X6 on the sample history. *)
Lemma X6_thread_pages_render_witness :
  exists page, thread_view "b" 1 crossed = (Value page, crossed).
Proof.
  destruct (@X6_thread_pages_render ticking_env crossed "b"
              (Board.mk 1 "b" "Random" "Random discussions")
              (Thread.mk 1 1 "No Subject" 1700000000 1700000003 false false)
              reachable_crossed eq_refl (or_introl eq_refl) eq_refl)
    as (_ & page & Hview & _).
  exists page. exact Hview.
Defined.

(** X7.  A reply brings its thread to the front: in a reachable world and
    with a clock that never goes back, after an accepted reply to thread
    [t] the [bumped_at] of the thread is the time of the reply, it is not
    earlier than before, no thread of the table has a later [bumped_at],
    and the other threads are rows of the table as they were. *)
Theorem X7_reply_bumps_to_latest (E : Env) (board_name : string)
    (form : PostForm.t) (w w' : World) (t : Z) :
  reachable E w ->
  (forall i j, (i <= j)%nat -> utcnow E i <= utcnow E j) ->
  PostForm.thread_id form = Some t ->
  run (create_post E board_name form) w =
    (Redirect None (thread_view_url board_name t), w') ->
  exists th,
    thread_get t w = Some th /\
    thread_get t w' =
      Some (Thread.set_bumped_at (utcnow E (clock_reads w)) th) /\
    Thread.bumped_at th <= utcnow E (clock_reads w) /\
    (forall x, In x (threads w') ->
       Thread.bumped_at x <= utcnow E (clock_reads w)) /\
    (forall x, In x (threads w') -> Thread.id x <> t -> In x (threads w)).
Proof.
  intros Hreach Hmono Hreply Hrun.
  apply create_post_accepted in Hrun.
  destruct Hrun as (_ & board & p & _ & _ & _ & Hthread).
  rewrite Hreply in Hthread.
  destruct Hthread as (_ & Ht & th & Hth & _).
  pose proof (reachable_bumped_in_past Hreach) as Hpast.
  assert (Hold : forall x, In x (threads w) ->
            Thread.bumped_at x <= utcnow E (clock_reads w)).
  { intros x Hx. destruct (Hpast x Hx) as [i [Hi ->]]. apply Hmono. lia. }
  exists th. split; [exact Hth|].
  split; [unfold thread_get; rewrite Ht; apply bump_found, Hth|].
  split; [apply Hold, (thread_get_some _ _ Hth)|].
  split.
  - intros x Hx. rewrite Ht in Hx. apply bump_In in Hx.
    destruct Hx as (x0 & Hx0 & _ & [->|[_ ->]]); [apply Hold, Hx0|lia].
  - intros x Hx Hne. rewrite Ht in Hx. apply bump_In in Hx.
    destruct Hx as (x0 & Hx0 & Hfix & [->|[Hid _]]); [exact Hx0|].
    unfold fixed_columns in Hfix. injection Hfix as Hidx _ _ _ _ _.
    congruence.
Qed.

(** X7 on the sample history. *)
Lemma X7_reply_bumps_to_latest_witness :
  option_map Thread.bumped_at (thread_get 1 crossed) = Some 1700000003 /\
  forall x, In x (threads crossed) -> Thread.bumped_at x <= 1700000003.
Proof.
  assert (Hreach : reachable ticking_env one_thread).
  { apply (@reach_request ticking_env seeded
             (post_request "b" (text_form "hello" None))).
    apply reach_start; reflexivity. }
  assert (Hmono : forall i j, (i <= j)%nat ->
            utcnow ticking_env i <= utcnow ticking_env j)
    by (intros i j Hij; unfold ticking_env; cbn [utcnow]; lia).
  destruct (@X7_reply_bumps_to_latest ticking_env "g"
              (text_form "reply" (Some 1)) one_thread crossed 1
              Hreach Hmono eq_refl eq_refl)
    as (th & _ & Hbump & _ & Hall & _).
  split; [|exact Hall].
  exact (f_equal (option_map Thread.bumped_at) Hbump).
Defined.

(** ** The board page *)

Lemma In_paginate (A : Type) (page : Z) (per_page : nat) (l : list A)
    (x : A) :
  In x (paginate page per_page l) -> In x l.
Proof.
  intros H. apply In_nth_error in H. destruct H as [i Hi].
  apply paginate_nth_error in Hi. eapply nth_error_In, Hi.
Qed.

Lemma length_paginate (A : Type) (page : Z) (per_page : nat) (l : list A) :
  (List.length (paginate page per_page l) <= per_page)%nat.
Proof. unfold paginate. apply firstn_le_length. Qed.

(** The posts of a thread, when no two were created at the same time,
    have one listing in ascending order of [created_at]. *)
Lemma posts_by_created_determined (ps l : list Post.t) :
  NoDup (map Post.created_at ps) ->
  Permutation l ps ->
  StronglySorted (fun a b => Post.created_at a <= Post.created_at b) l ->
  l = order_by post_created_asc ps.
Proof.
  intros Hnd Hp Hs.
  apply (order_by_determined _ post_created_asc_total post_created_asc_trans).
  - intros a b Ha Hb Hab Hba.
    apply (NoDup_map_eq Post.created_at ps); try assumption.
    unfold post_created_asc in *. apply Z.leb_le in Hab, Hba. lia.
  - exact Hp.
  - eapply StronglySorted_weaken; [|exact Hs].
    intros a b H. apply Z.leb_le. exact H.
Qed.

Lemma pinned_first_recent_first_sorted (l : list Thread.t) :
  pinned_first_recent_first l ->
  StronglySorted (fun a b => pinned_then_bumped_desc a b = true) l.
Proof.
  induction l as [|x r IH]; intros H; constructor.
  - apply IH. intros i j a b Hij Ha Hb.
    apply (H (S i) (S j)); [lia|exact Ha|exact Hb].
  - apply Forall_forall. intros y Hy. apply In_nth_error in Hy.
    destruct Hy as [j Hj].
    destruct (H 0%nat (S j) x y) as [Hpin Hbump];
      [lia|reflexivity|exact Hj|].
    unfold pinned_then_bumped_desc.
    destruct (Thread.is_pinned x), (Thread.is_pinned y); cbn.
    + apply Z.leb_le, Hbump. reflexivity.
    + reflexivity.
    + discriminate (Hpin eq_refl).
    + apply Z.leb_le, Hbump. reflexivity.
Qed.

(** The threads of a board, when no two have the same pin status and
    [bumped_at], have one listing with the pinned threads first and each
    group in descending order of [bumped_at]. *)
Lemma board_listing_determined (bid : Z) (w : World) (l : list Thread.t) :
  NoDup (map listing_key (threads_by_board bid w)) ->
  Permutation l (threads_by_board bid w) ->
  pinned_first_recent_first l ->
  l = board_listing bid w.
Proof.
  intros Hnd Hp Hs. unfold board_listing.
  apply (order_by_determined _ pinned_then_bumped_desc_total
           pinned_then_bumped_desc_trans).
  - intros a b Ha Hb Hab Hba.
    apply (NoDup_map_eq listing_key (threads_by_board bid w));
      try assumption.
    apply pinned_then_bumped_desc_true in Hab, Hba.
    destruct Hab as [Hab1 Hab2], Hba as [Hba1 Hba2].
    unfold listing_key.
    assert (Hpin : Thread.is_pinned a = Thread.is_pinned b).
    { destruct (Thread.is_pinned a), (Thread.is_pinned b);
        try reflexivity; [symmetry; apply Hba1|apply Hab1]; reflexivity. }
    specialize (Hab2 Hpin). specialize (Hba2 (eq_sym Hpin)).
    f_equal; [exact Hpin|lia].
  - exact Hp.
  - apply pinned_first_recent_first_sorted, Hs.
Qed.

(** X8.  What [board_view] renders: at most 10 threads, each a thread of
    the board of the URL; with each thread at most 5 preview posts and the
    number of all its posts, which is the number of posts on the page of
    the thread.  When no two posts of the thread were created at the same
    time, the preview is the beginning of what the page of the thread
    shows, and of every listing of the thread's posts in ascending order of
    [created_at].  The request changes nothing. *)
Theorem X8_board_view_items (board_name : string) (page : Z) (w w' : World)
    (board : Board.t) (items : list ThreadItem.t) :
  run (board_view board_name page) w = (Render (board_html board items), w') ->
  w' = w /\
  first (boards_by_name board_name w) = Some board /\
  (List.length items <= 10)%nat /\
  forall it, In it items ->
    In (ThreadItem.thread it) (threads w) /\
    Thread.board_id (ThreadItem.thread it) = Board.id board /\
    (List.length (ThreadItem.preview_posts it) <= 5)%nat /\
    ThreadItem.total_posts it =
      List.length (posts_by_thread (Thread.id (ThreadItem.thread it)) w) /\
    forall tp w'',
      thread_view board_name (Thread.id (ThreadItem.thread it)) w
        = (Value tp, w'') ->
      ThreadItem.total_posts it = List.length (ThreadPage.posts tp) /\
      (NoDup (map Post.created_at
                (posts_by_thread (Thread.id (ThreadItem.thread it)) w)) ->
       ThreadItem.preview_posts it = firstn 5 (ThreadPage.posts tp) /\
       forall l,
         Permutation l
           (posts_by_thread (Thread.id (ThreadItem.thread it)) w) ->
         StronglySorted (fun a b => Post.created_at a <= Post.created_at b)
           l ->
         ThreadItem.preview_posts it = firstn 5 l).
Proof.
  unfold run, board_view, board_or_404, bind, ret, leave, get_world.
  destruct (first (boards_by_name board_name w)) as [b|] eqn:Hboard;
    [|discriminate].
  destruct (page_offset page 10 >? MAX_BOUND_INTEGER); [discriminate|].
  intros [= <- <- <-].
  split; [reflexivity|]. split; [reflexivity|].
  split; [rewrite length_map; apply length_paginate|].
  intros it Hit. apply in_map_iff in Hit. destruct Hit as [th [<- Hth]].
  apply In_paginate in Hth. unfold board_listing in Hth.
  apply (Permutation_in _ (order_by_perm _ _)) in Hth.
  unfold threads_by_board in Hth. apply filter_In in Hth.
  destruct Hth as [Hin Hbid]. apply Z.eqb_eq in Hbid.
  cbn [thread_item ThreadItem.thread ThreadItem.preview_posts
       ThreadItem.total_posts].
  split; [exact Hin|]. split; [exact Hbid|].
  split; [apply firstn_le_length|]. split; [reflexivity|].
  intros tp w''.
  unfold thread_view, board_or_404, bind, ret, leave, get_world.
  rewrite Hboard.
  destruct (first (threads_by_id_and_board _ _ w)); [|discriminate].
  destruct (order_by _ _) as [|p ps] eqn:Hsorted; [discriminate|].
  intros [= <- _]. cbn [ThreadPage.posts]. rewrite <- Hsorted.
  split; [symmetry; apply Permutation_length, order_by_perm|].
  intros Hnd. split; [reflexivity|].
  intros l Hp Hs.
  rewrite (posts_by_created_determined Hnd Hp Hs). reflexivity.
Qed.

(** X8 on the sample history: the one thread of board [b] is listed with
    two posts, created at different times, and both are in its preview. *)
Lemma X8_board_view_items_witness :
  exists board items,
    run (board_view "b" 1) crossed = (Render (board_html board items), crossed)
    /\ map ThreadItem.total_posts items = [2%nat]
    /\ (List.length items <= 10)%nat
    /\ map ThreadItem.preview_posts items = [posts crossed].
Proof.
  eexists _, _. split; [reflexivity|]. split; [reflexivity|].
  destruct (@X8_board_view_items "b" 1 crossed _ _ _ eq_refl)
    as (_ & _ & Hlen & Hitems).
  split; [exact Hlen|].
  destruct (Hitems
              (thread_item crossed
                 (Thread.mk 1 1 "No Subject" 1700000000 1700000003
                    false false))
              (or_introl eq_refl)) as (_ & _ & _ & _ & Hpage).
  destruct (Hpage (ThreadPage.mk
                     (Board.mk 1 "b" "Random" "Random discussions")
                     (Thread.mk 1 1 "No Subject" 1700000000 1700000003
                        false false)
                     (posts crossed)) crossed eq_refl) as (_ & Hpreview).
  destruct Hpreview as [Hfirst _].
  - repeat constructor; cbn; intuition discriminate.
  - exact (f_equal (fun ps => [ps]) Hfirst).
Defined.

(** The thread at rank [i] of a listing is on page [i / per_page + 1], at
    position [i mod per_page]. *)
Lemma paginate_covers (A : Type) (per_page : nat) (l : list A) (i : nat)
    (x : A) :
  (0 < per_page)%nat ->
  nth_error l i = Some x ->
  nth_error (paginate (Z.of_nat (i / per_page) + 1) per_page l)
    (i mod per_page) = Some x.
Proof.
  intros Hpos Hx. unfold paginate.
  replace (Z.of_nat (i / per_page) + 1 <? 1) with false
    by (symmetry; apply Z.ltb_ge; lia).
  rewrite nth_error_firstn.
  replace (Nat.ltb (i mod per_page) per_page) with true
    by (symmetry; apply Nat.ltb_lt, Nat.mod_upper_bound; lia).
  rewrite nth_error_skipn.
  replace (Z.to_nat (Z.of_nat (i / per_page) + 1 - 1)) with (i / per_page)%nat
    by lia.
  rewrite <- Hx. f_equal.
  pose proof (Nat.div_mod_eq i per_page). lia.
Qed.

(** The [OFFSET] of the page that holds rank [i] is not above [i]. *)
Lemma page_offset_rank (i : nat) :
  page_offset (Z.of_nat (i / 10) + 1) 10 <= Z.of_nat i.
Proof.
  unfold page_offset.
  replace (Z.of_nat (i / 10) + 1 <? 1) with false
    by (symmetry; apply Z.ltb_ge; lia).
  pose proof (Nat.div_mod_eq i 10). lia.
Qed.

Lemma offset_passes (page : Z) :
  page_offset page 10 <= MAX_BOUND_INTEGER ->
  (page_offset page 10 >? MAX_BOUND_INTEGER) = false.
Proof.
  intros H. destruct (Z.gtb_spec (page_offset page 10) MAX_BOUND_INTEGER);
    [lia|reflexivity].
Qed.

(** X9.  The pages of a board cover it.  When no two threads of the board
    have the same pin status and [bumped_at], the board has one ordered
    listing, and when it has no more threads than the database has keys,
    every thread of the board has a rank [i] in that listing and is on
    page [i / 10 + 1] at position [i mod 10].  A page number below 1 gives
    page 1; a page beyond the last is rendered with no thread, not
    answered with an error, as long as its [OFFSET] is an integer that the
    database binds, and ends with [OverflowError] when it is not. *)
Theorem X9_pages_cover_board (board_name : string) (board : Board.t)
    (w : World) :
  first (boards_by_name board_name w) = Some board ->
  (NoDup (map listing_key (threads_by_board (Board.id board) w)) ->
   Z.of_nat (List.length (threads_by_board (Board.id board) w))
     <= MAX_BOUND_INTEGER ->
   (forall l,
      Permutation l (threads_by_board (Board.id board) w) ->
      pinned_first_recent_first l ->
      l = board_listing (Board.id board) w) /\
   (forall th,
      In th (threads_by_board (Board.id board) w) ->
      exists i items,
        nth_error (board_listing (Board.id board) w) i = Some th /\
        run (board_view board_name (Z.of_nat (i / 10) + 1)) w =
          (Render (board_html board items), w) /\
        option_map ThreadItem.thread (nth_error items (i mod 10))
          = Some th)) /\
  (forall page,
     page < 1 ->
     run (board_view board_name page) w = run (board_view board_name 1) w) /\
  (forall page,
     Z.of_nat (List.length (threads_by_board (Board.id board) w))
       <= (page - 1) * 10 ->
     page_offset page 10 <= MAX_BOUND_INTEGER ->
     run (board_view board_name page) w = (Render (board_html board []), w)) /\
  (forall page,
     MAX_BOUND_INTEGER < page_offset page 10 ->
     run (board_view board_name page) w = (OverflowError, w)).
Proof.
  intros Hboard.
  assert (Hl : List.length (board_listing (Board.id board) w) =
               List.length (threads_by_board (Board.id board) w))
    by apply Permutation_length, order_by_perm.
  unfold run, board_view, board_or_404, bind, ret, leave, get_world.
  rewrite Hboard. cbn beta iota.
  split; [|split; [|split]].
  - intros Hnd Hsize. split.
    + intros l Hp Hs. apply board_listing_determined; assumption.
    + intros th Hth.
      apply (Permutation_in _ (Permutation_sym
               (order_by_perm pinned_then_bumped_desc _))) in Hth.
      apply In_nth_error in Hth. destruct Hth as [i Hi].
      assert (Hrank : (i < List.length (board_listing (Board.id board) w))%nat)
        by (apply nth_error_Some; unfold board_listing; rewrite Hi;
            discriminate).
      exists i. eexists. split; [exact Hi|].
      rewrite offset_passes
        by (pose proof (page_offset_rank i); lia).
      split; [reflexivity|].
      rewrite nth_error_map.
      rewrite (@paginate_covers _ 10 _ i th); [reflexivity|lia|exact Hi].
  - intros page Hpage. unfold paginate, page_offset.
    replace (page <? 1) with true by (symmetry; apply Z.ltb_lt; lia).
    reflexivity.
  - intros page Hlen Hbound. rewrite (@offset_passes page Hbound).
    replace (paginate page 10 (board_listing (Board.id board) w))
      with (@nil Thread.t); [reflexivity|].
    symmetry. unfold paginate.
    rewrite skipn_all2; [reflexivity|].
    destruct (page <? 1) eqn:Hp; [apply Z.ltb_lt in Hp|apply Z.ltb_ge in Hp];
      lia.
  - intros page Hover.
    destruct (Z.gtb_spec (page_offset page 10) MAX_BOUND_INTEGER);
      [reflexivity|lia].
Qed.

(** X9 on the sample of twelve threads, bumped at twelve different times:
    the thread bumped first is the last of the listing and is the second
    thread of page 2; page 3 is empty; page [2 ^ 63] is an
    [OverflowError]. *)
Lemma X9_pages_cover_board_witness :
  (exists items,
     run (board_view "b" 2) twelve_threads =
       (Render (board_html (Board.mk 1 "b" "Random" "Random discussions")
                  items), twelve_threads) /\
     option_map (fun it => Thread.id (ThreadItem.thread it))
       (nth_error items 1) = Some 1) /\
  run (board_view "b" 3) twelve_threads =
    (Render (board_html (Board.mk 1 "b" "Random" "Random discussions") []),
     twelve_threads) /\
  run (board_view "b" (2 ^ 63)) twelve_threads =
    (OverflowError, twelve_threads).
Proof.
  destruct (@X9_pages_cover_board "b"
              (Board.mk 1 "b" "Random" "Random discussions") twelve_threads
              eq_refl) as (Hcover & _ & Hlast & Hover).
  split; [|split].
  - destruct Hcover as [_ Hrank].
    + repeat constructor; cbn; intuition discriminate.
    + cbn. lia.
    + destruct (Hrank (Thread.mk 1 1 "t" 1 1 false false))
        as (i & items & Hi & Hrun & Hitem).
      * cbn. tauto.
      * eexists. split; reflexivity.
  - apply Hlast; cbn; lia.
  - apply Hover. cbn. lia.
Defined.

(** ** Requests that are refused *)

(** X10.  A board name that no board carries is a 404 for every route
    that takes one, and the request changes nothing: [create_post] saves no
    file and inserts no row.  A reply, on an existing board, to a thread
    key that no thread has leaves the three tables as they are; it is
    answered with 413 when the body is above [MAX_CONTENT_LENGTH], else
    with the [IndexError] of the upload step when that raises, and else
    with 404. *)
Theorem X10_not_found (E : Env) (board_name : string) (w : World) :
  (first (boards_by_name board_name w) = None ->
   (forall form, run (create_post E board_name form) w = (Abort 404, w)) /\
   (forall page, run (board_view board_name page) w = (Abort 404, w)) /\
   (forall tid, thread_view board_name tid w = (Exit (Abort 404), w))) /\
  (forall form tid r w',
     first (boards_by_name board_name w) <> None ->
     PostForm.thread_id form = Some tid ->
     thread_get tid w = None ->
     run (create_post E board_name form) w = (r, w') ->
     r = (if PostForm.content_length form >? MAX_CONTENT_LENGTH
          then Abort 413
          else if upload_raises E (PostForm.file form) then IndexError
          else Abort 404) /\
     (within_limit form ->
      upload_raises E (PostForm.file form) = false ->
      r = Abort 404) /\
     boards w' = boards w /\ threads w' = threads w /\ posts w' = posts w).
Proof.
  split.
  - intros Hnone.
    unfold run, create_post, board_view, thread_view, board_or_404, bind,
      ret, leave, get_world.
    rewrite Hnone. repeat split.
  - intros form tid r w' Hboard Htid Hth Hrun.
    assert (Hmain :
      r = (if PostForm.content_length form >? MAX_CONTENT_LENGTH
           then Abort 413
           else if upload_raises E (PostForm.file form) then IndexError
           else Abort 404) /\
      boards w' = boards w /\ threads w' = threads w /\ posts w' = posts w).
    { revert Hrun. unfold upload_raises. unfold_handlers. rewrite Htid.
      destruct (first (boards_by_name board_name w)) as [board|];
        [clear Hboard|contradiction].
      upload_cases form ltac:(intros [= <- <-]; repeat split);
        lookup_in w tid; rewrite Hth; cbn beta iota;
        intros [= <- <-]; repeat split. }
    destruct Hmain as (Hr & Htables).
    split; [exact Hr|]. split; [|exact Htables].
    intros Hlimit Hraise.
    rewrite Hr, (within_limit_passes Hlimit), Hraise. reflexivity.
Qed.

(** X10 on the samples: board [x] does not exist, thread 7 neither. *)
Lemma X10_not_found_witness :
  run (create_post ticking_env "x" (file_form "hello" None "cat.png")) seeded
  = (Abort 404, seeded) /\
  fst (run (create_post ticking_env "b" (text_form "reply" (Some 7)))
         one_thread) = Abort 404.
Proof.
  destruct (@X10_not_found ticking_env "x" seeded) as [Hboard _].
  destruct (@X10_not_found ticking_env "b" one_thread) as [_ Hthread].
  split.
  - apply (proj1 (Hboard eq_refl)).
  - refine (proj1 (proj2 (Hthread (text_form "reply" (Some 7)) 7 _ _ _
                            eq_refl eq_refl eq_refl)) _ eq_refl);
      [discriminate|unfold within_limit; cbn; lia].
Defined.

(** X11.  An accepted file whose name, once passed through
    [secure_filename], has no dot makes [generate_filename] raise
    [IndexError]: the request, on an existing board and with a body within
    [MAX_CONTENT_LENGTH], ends there, and nothing is written, neither a
    file nor a row. *)
Theorem X11_dotless_secure_name_raises (E : Env) (board_name : string)
    (form : PostForm.t) (f : FileStorage.t) (w : World) :
  first (boards_by_name board_name w) <> None ->
  within_limit form ->
  PostForm.file form = Some f ->
  accepted (Some f) = true ->
  Py.contains "." (secure_filename E (FileStorage.filename f)) = false ->
  run (create_post E board_name form) w = (IndexError, w).
Proof.
  intros Hboard Hlimit Hfile Hacc Hdot.
  apply within_limit_passes in Hlimit. unfold_handlers.
  destruct (first (boards_by_name board_name w)) as [board|];
    [clear Hboard|contradiction].
  rewrite Hlimit, Hfile, Hacc.
  destruct (Py.rsplit_dot_1 (secure_filename E (FileStorage.filename f)))
    as [e|] eqn:Hsplit; [exfalso|reflexivity].
  unfold Py.rsplit_dot_1 in Hsplit.
  assert (Hno : forall s, Py.contains "." s = false -> Py.rsplit_dot s = None).
  { clear. induction s as [|c r IH]; cbn [Py.contains Py.rsplit_dot];
      [reflexivity|].
    intros H. apply orb_false_iff in H. destruct H as [Hc Hr].
    rewrite (IH Hr), Ascii.eqb_sym, Hc. reflexivity. }
  rewrite (Hno _ Hdot) in Hsplit. discriminate.
Qed.

(** X11 on the sample: the file [.png] under a [secure_filename] that
    strips the dots at the start. *)
Lemma X11_dotless_secure_name_raises_witness :
  run (create_post stripping_env "b" (file_form "hello" None ".png")) seeded
  = (IndexError, seeded).
Proof.
  apply (@X11_dotless_secure_name_raises stripping_env "b"
           (file_form "hello" None ".png")
           (FileStorage.mk ".png" [Byte.x89; Byte.x50; Byte.x4e; Byte.x47])
           seeded); try reflexivity;
    [discriminate|unfold within_limit; cbn; lia].
Defined.

Lemma read_file_save (path : string) (bytes : list Byte.byte)
    (dir : list (string * list Byte.byte)) :
  read_file path (save path bytes dir) = Some bytes.
Proof.
  unfold read_file, save. cbn [find fst]. rewrite String.eqb_refl.
  reflexivity.
Qed.

Lemma read_file_save_other (path path' : string) (bytes : list Byte.byte)
    (dir : list (string * list Byte.byte)) :
  path' <> path ->
  read_file path' (save path bytes dir) = read_file path' dir.
Proof.
  intros Hne. unfold read_file, save. cbn [find fst].
  replace (path =? path')%string with false
    by (symmetry; apply String.eqb_neq; congruence).
  f_equal. induction dir as [|[p b] r IH]; [reflexivity|].
  cbn [filter fst]. destruct (String.eqb_spec p path) as [->|Hp].
  - cbn [negb find fst].
    replace (path =? path')%string with false
      by (symmetry; apply String.eqb_neq; congruence).
    exact IH.
  - cbn [negb find fst]. destruct (p =? path')%string; [reflexivity|exact IH].
Qed.

(** X12.  An upload can be read back: when a post with an accepted file
    is accepted, the post carries the generated name (the first eight
    characters of the uuid, a dot, the extension in lower case) and the
    sanitized original name, the file under that name in the upload
    directory holds the bytes that were sent, [file_size] is their number,
    and every other file of the directory is as before. *)
Theorem X12_upload_read_back (E : Env) (board_name : string)
    (form : PostForm.t) (f : FileStorage.t) (w w' : World) (t : Z) :
  PostForm.file form = Some f ->
  accepted (Some f) = true ->
  run (create_post E board_name form) w =
    (Redirect None (thread_view_url board_name t), w') ->
  exists ext name p,
    Py.rsplit_dot_1 (secure_filename E (FileStorage.filename f)) = Some ext /\
    name = (Py.prefix 8 (uuid4 E (uuid_reads w)) ++ "." ++ Py.lower ext)%string
    /\ posts w' = posts w ++ [p] /\
    Post.filename p = Some name /\
    Post.original_filename p =
      Some (secure_filename E (FileStorage.filename f)) /\
    Post.file_size p = Some (Z.of_nat (List.length (FileStorage.stream f))) /\
    read_file (path_join UPLOAD_FOLDER name) (uploads w') =
      Some (FileStorage.stream f) /\
    forall path, path <> path_join UPLOAD_FOLDER name ->
      read_file path (uploads w') = read_file path (uploads w).
Proof.
  intros Hfile Hacc. unfold_handlers. rewrite Hfile, Hacc.
  destruct (first (boards_by_name board_name w)) as [board|];
    [|discriminate].
  limit_cases form ltac:(discriminate).
  destruct (Py.rsplit_dot_1 _) as [e|]; cbn beta iota; [|discriminate].
  destruct (PostForm.thread_id form) as [tid|]; cbn beta iota.
  - lookup_in w tid.
    destruct (thread_get tid w) as [th|]; cbn beta iota; [|discriminate].
    destruct (Thread.is_locked th); url_cases form; try discriminate.
    intros [= <- <-]; cbn.
    eexists e, _, _. repeat split.
    + apply read_file_save.
    + intros path Hne. apply read_file_save_other, Hne.
  - destruct (negb _ && negb _ && negb _); cbn beta iota; [discriminate|].
    intros [= <- <-]; cbn.
    eexists e, _, _. repeat split.
    + apply read_file_save.
    + intros path Hne. apply read_file_save_other, Hne.
Qed.

(** X12 on the sample: a first post with the file [Cat.PNG]. *)
Lemma X12_upload_read_back_witness :
  read_file "static/uploads/3f2b8c1d.png"
    (uploads (snd (run (create_post ticking_env "b"
                          (file_form "hello" None "Cat.PNG")) seeded)))
  = Some [Byte.x89; Byte.x50; Byte.x4e; Byte.x47].
Proof.
  destruct (@X12_upload_read_back ticking_env "b"
              (file_form "hello" None "Cat.PNG")
              (FileStorage.mk "Cat.PNG"
                 [Byte.x89; Byte.x50; Byte.x4e; Byte.x47])
              seeded _ 1 eq_refl eq_refl eq_refl)
    as (ext & name & p & Hext & Hname & _ & _ & _ & _ & Hread & _).
  injection Hext as <-. subst name. exact Hread.
Defined.

(** ** Extensions *)

Lemma lower_char_dot (c : ascii) :
  Ascii.eqb (Py.lower_char c) "." = Ascii.eqb c ".".
Proof.
  destruct c as [[] [] [] [] [] [] [] []]; reflexivity.
Qed.

Lemma lower_char_idem (c : ascii) :
  Py.lower_char (Py.lower_char c) = Py.lower_char c.
Proof.
  destruct c as [[] [] [] [] [] [] [] []]; reflexivity.
Qed.

Lemma lower_idem (s : string) : Py.lower (Py.lower s) = Py.lower s.
Proof.
  induction s as [|c r IH]; [reflexivity|].
  cbn [Py.lower]. rewrite lower_char_idem, IH. reflexivity.
Qed.

Lemma contains_dot_lower (s : string) :
  Py.contains "." (Py.lower s) = Py.contains "." s.
Proof.
  induction s as [|c r IH]; [reflexivity|].
  cbn [Py.lower Py.contains].
  rewrite IH, (Ascii.eqb_sym "." (Py.lower_char c)), lower_char_dot,
    Ascii.eqb_sym.
  reflexivity.
Qed.

Lemma rsplit_dot_none (s : string) :
  Py.contains "." s = false -> Py.rsplit_dot s = None.
Proof.
  induction s as [|c r IH]; cbn [Py.contains Py.rsplit_dot]; [reflexivity|].
  intros H. apply orb_false_iff in H. destruct H as [Hc Hr].
  rewrite (IH Hr), Ascii.eqb_sym, Hc. reflexivity.
Qed.

(** A split at the last dot: the two parts and a dot make the string, and
    the second part has no dot. *)
Lemma rsplit_dot_some (s a b : string) :
  Py.rsplit_dot s = Some (a, b) ->
  s = (a ++ "." ++ b)%string /\ Py.contains "." b = false.
Proof.
  revert a. induction s as [|c r IH]; cbn [Py.rsplit_dot]; [discriminate|].
  intros a. destruct (Py.rsplit_dot r) as [[a' b']|] eqn:Hr.
  - intros [= <- <-]. destruct (IH a' eq_refl) as [-> Hb].
    split; [reflexivity|exact Hb].
  - destruct (Ascii.eqb_spec c "."); [|discriminate].
    intros [= <- <-]. subst c. split; [reflexivity|].
    destruct (Py.contains "." r) eqn:Hdot; [|reflexivity].
    destruct (contains_dot_rsplit _ Hdot) as [ext Hext].
    unfold Py.rsplit_dot_1 in Hext. rewrite Hr in Hext. discriminate.
Qed.

Lemma rsplit_dot_join (a b : string) :
  Py.contains "." b = false ->
  Py.rsplit_dot (a ++ "." ++ b)%string = Some (a, b).
Proof.
  intros Hb. induction a as [|c r IH].
  - cbn [String.append Py.rsplit_dot]. rewrite (rsplit_dot_none _ Hb).
    reflexivity.
  - cbn [String.append Py.rsplit_dot]. cbn [String.append] in IH.
    rewrite IH. reflexivity.
Qed.

Lemma contains_dot_join (a b : string) :
  Py.contains "." (a ++ "." ++ b)%string = true.
Proof.
  induction a as [|c r IH]; [reflexivity|].
  cbn [String.append Py.contains]. cbn [String.append] in IH.
  rewrite IH. apply orb_true_r.
Qed.

Lemma rsplit_dot_lower (s : string) :
  Py.rsplit_dot (Py.lower s) =
  option_map (fun ab => (Py.lower (fst ab), Py.lower (snd ab)))
    (Py.rsplit_dot s).
Proof.
  induction s as [|c r IH]; [reflexivity|].
  cbn [Py.lower Py.rsplit_dot]. rewrite IH.
  destruct (Py.rsplit_dot r) as [[a b]|]; cbn [option_map fst snd].
  - reflexivity.
  - rewrite lower_char_dot. destruct (Ascii.eqb c "."); reflexivity.
Qed.

Lemma allowed_existsb (ext : string) :
  existsb (String.eqb ext) ALLOWED_EXTENSIONS = true <->
  In ext ALLOWED_EXTENSIONS.
Proof.
  rewrite existsb_exists. split.
  - intros [x [Hx Heq]]. apply String.eqb_eq in Heq. subst x. exact Hx.
  - intros H. exists ext. split; [exact H|apply String.eqb_refl].
Qed.

(** X13.  [allowed_file] decides by the text after the last dot, letter
    case apart: a name [stem.ext] whose [ext] has no dot is allowed exactly
    when [ext] in lower case is one of the seven extensions, whatever the
    stem; every allowed name is of that form; and a name and its lower-case
    form are allowed together. *)
Theorem X13_allowed_file_by_last_extension :
  (forall stem ext,
     Py.contains "." ext = false ->
     (allowed_file (stem ++ "." ++ ext)%string = true <->
      In (Py.lower ext) ALLOWED_EXTENSIONS)) /\
  (forall filename,
     allowed_file filename = true ->
     exists stem ext,
       filename = (stem ++ "." ++ ext)%string /\
       Py.contains "." ext = false /\
       In (Py.lower ext) ALLOWED_EXTENSIONS) /\
  (forall filename,
     allowed_file (Py.lower filename) = allowed_file filename).
Proof.
  split; [|split].
  - intros stem ext Hext. unfold allowed_file, Py.rsplit_dot_1.
    rewrite contains_dot_join, (rsplit_dot_join stem _ Hext).
    cbn [option_map snd andb]. apply allowed_existsb.
  - intros filename. unfold allowed_file, Py.rsplit_dot_1.
    intros H. apply andb_true_iff in H. destruct H as [_ H].
    destruct (Py.rsplit_dot filename) as [[a b]|] eqn:Hsplit;
      [|discriminate].
    cbn [option_map snd] in H. apply allowed_existsb in H.
    destruct (rsplit_dot_some _ Hsplit) as [-> Hb].
    exists a, b. auto.
  - intros filename. unfold allowed_file, Py.rsplit_dot_1.
    rewrite contains_dot_lower, rsplit_dot_lower.
    destruct (Py.rsplit_dot filename) as [[a b]|];
      cbn [option_map snd fst]; [|reflexivity].
    rewrite lower_idem. reflexivity.
Qed.

(** X14.  [generate_filename] raises [IndexError] on a name without a dot
    and reads no uuid then.  On a name with a dot it reads one uuid and
    returns its first eight characters, a dot, and the extension of the
    name in lower case; that extension is again what a split of the result
    gives, and the result is allowed by [allowed_file] exactly when the
    name is. *)
Theorem X14_generate_filename (E : Env) (original_filename : string)
    (w : World) :
  (Py.contains "." original_filename = false ->
   generate_filename E original_filename w = (Exit IndexError, w)) /\
  (Py.contains "." original_filename = true ->
   exists ext name,
     Py.rsplit_dot_1 original_filename = Some ext /\
     name = (Py.prefix 8 (uuid4 E (uuid_reads w)) ++ "." ++ Py.lower ext)%string
     /\ generate_filename E original_filename w =
          (Value name, set_uuid_reads (S (uuid_reads w)) w) /\
     Py.rsplit_dot_1 name = Some (Py.lower ext) /\
     allowed_file name = allowed_file original_filename).
Proof.
  unfold generate_filename, Py.rsplit_dot_1, new_uuid, bind, ret, leave.
  split.
  - intros Hdot. rewrite (rsplit_dot_none _ Hdot). reflexivity.
  - intros Hdot.
    destruct (contains_dot_rsplit _ Hdot) as [ext Hext].
    unfold Py.rsplit_dot_1 in Hext.
    destruct (Py.rsplit_dot original_filename) as [[a b]|] eqn:Hsplit;
      [|discriminate].
    cbn [option_map snd] in Hext. injection Hext as ->.
    destruct (rsplit_dot_some _ Hsplit) as [_ Hnodot].
    assert (Hlow : Py.contains "." (Py.lower ext) = false)
      by (rewrite contains_dot_lower; exact Hnodot).
    exists ext,
      (Py.prefix 8 (uuid4 E (uuid_reads w)) ++ "." ++ Py.lower ext)%string.
    cbn [option_map snd].
    repeat split.
    + rewrite (rsplit_dot_join _ _ Hlow). reflexivity.
    + unfold allowed_file, Py.rsplit_dot_1.
      rewrite contains_dot_join, (rsplit_dot_join _ _ Hlow), Hdot, Hsplit.
      cbn [option_map snd andb]. rewrite lower_idem. reflexivity.
Qed.

(** X14 on the sample name [Cat.PNG]. *)
Lemma X14_generate_filename_witness :
  fst (generate_filename ticking_env "Cat.PNG" seeded) = Value "3f2b8c1d.png"
  /\ allowed_file "3f2b8c1d.png" = allowed_file "Cat.PNG".
Proof.
  destruct (proj2 (@X14_generate_filename ticking_env "Cat.PNG" seeded)
              eq_refl)
    as (ext & name & Hext & Hname & Hgen & _ & Hallowed).
  injection Hext as <-. subst name.
  split; [rewrite Hgen; reflexivity|exact Hallowed].
Defined.

(** X13 on sample names: a double extension is judged by the last one, in
    any letter case. *)
Lemma X13_allowed_file_by_last_extension_witness :
  allowed_file "shell.php.JPG" = true /\ allowed_file "cat.png.exe" = false.
Proof.
  destruct X13_allowed_file_by_last_extension as (Hlast & _ & _).
  split.
  - apply (Hlast "shell.php" "JPG" eq_refl). cbn. auto.
  - destruct (allowed_file "cat.png.exe") eqn:H; [|reflexivity].
    apply (Hlast "cat.png" "exe" eq_refl) in H. cbn in H.
    repeat destruct H as [H|H]; try discriminate H; destruct H.
Defined.

(** ** Configuration and start-up *)

Lemma prefix_split (a s : string) :
  String.prefix a s = true -> exists rest, s = (a ++ rest)%string.
Proof.
  revert s. induction a as [|c r IH]; intros s.
  - intros _. exists s. reflexivity.
  - destruct s as [|d t]; cbn [String.prefix]; [discriminate|].
    destruct (ascii_dec c d) as [<-|]; [|discriminate].
    intros H. destruct (IH t H) as [rest ->]. exists rest. reflexivity.
Qed.

Lemma prefix_empty (s : string) : String.prefix "" s = true.
Proof. destruct s; reflexivity. Qed.

Lemma fix_legacy_url (rest : string) :
  fix_database_url ("postgres://" ++ rest) =
  ("postgresql://" ++ replace_from 0 "postgres://" "postgresql://" rest)%string.
Proof.
  unfold fix_database_url. cbn. rewrite !prefix_empty. reflexivity.
Qed.

(** X15.  The normalisation of the database URL: a URL that does not
    start with [postgres://] is kept as it is; one that does comes out
    starting with [postgresql://]; the result never starts with
    [postgres://], so normalising twice is normalising once. *)
Theorem X15_fix_database_url (database_url : string) :
  (String.prefix "postgres://" database_url = false ->
   fix_database_url database_url = database_url) /\
  (String.prefix "postgres://" database_url = true ->
   String.prefix "postgresql://" (fix_database_url database_url) = true) /\
  String.prefix "postgres://" (fix_database_url database_url) = false /\
  fix_database_url (fix_database_url database_url) =
    fix_database_url database_url.
Proof.
  assert (Hkeep : forall s, String.prefix "postgres://" s = false ->
            fix_database_url s = s)
    by (intros s H; unfold fix_database_url; rewrite H; reflexivity).
  assert (Hnever : String.prefix "postgres://"
                     (fix_database_url database_url) = false).
  { destruct (String.prefix "postgres://" database_url) eqn:Hp.
    - destruct (prefix_split _ _ Hp) as [rest ->].
      rewrite fix_legacy_url. reflexivity.
    - rewrite (Hkeep _ Hp). exact Hp. }
  split; [apply Hkeep|]. split; [|split].
  - intros Hp. destruct (prefix_split _ _ Hp) as [rest ->].
    rewrite fix_legacy_url. cbn. apply prefix_empty.
  - exact Hnever.
  - apply Hkeep, Hnever.
Qed.

(** X15 on the default URL and on a legacy URL. *)
Lemma X15_fix_database_url_witness :
  fix_database_url "sqlite:///imageboard.db" = "sqlite:///imageboard.db" /\
  String.prefix "postgresql://" (fix_database_url "postgres://u:p@h/db")
  = true.
Proof.
  split.
  - apply (proj1 (X15_fix_database_url "sqlite:///imageboard.db")).
    reflexivity.
  - apply (proj1 (proj2 (X15_fix_database_url "postgres://u:p@h/db"))).
    reflexivity.
Defined.

Lemma create_tables_seeds (w : World) :
  boards w = [] ->
  create_tables w =
  set_boards [ Board.mk 1 "b" "Random" "Random discussions";
               Board.mk 2 "g" "Technology" "Technology discussions";
               Board.mk 3 "v" "Video Games" "Video game discussions" ] w.
Proof.
  intros Hb. unfold create_tables, insert_board, set_boards.
  rewrite Hb. cbn. rewrite Hb. reflexivity.
Qed.

(** X16.  The start-up seeding: when the board table is empty the three
    default boards [b], [g], [v] are added with the keys 1, 2, 3 and
    nothing else changes; when the table has a row, nothing changes at
    all.  So running the start-up code again does nothing, and after it
    each default board has a page. *)
Theorem X16_create_tables (w : World) :
  (boards w <> [] -> create_tables w = w) /\
  (boards w = [] ->
   map Board.name (boards (create_tables w)) = ["b"; "g"; "v"] /\
   map Board.id (boards (create_tables w)) = [1; 2; 3] /\
   threads (create_tables w) = threads w /\
   posts (create_tables w) = posts w /\
   uploads (create_tables w) = uploads w /\
   forall name, In name ["b"; "g"; "v"] ->
     exists board items,
       run (board_view name 1) (create_tables w) =
       (Render (board_html board items), create_tables w)) /\
  create_tables (create_tables w) = create_tables w.
Proof.
  split; [|split].
  - unfold create_tables. destruct (boards w); [contradiction|reflexivity].
  - intros Hb. rewrite (create_tables_seeds _ Hb). cbn.
    repeat split.
    intros name [<-|[<-|[<-|[]]]]; eexists _, _; reflexivity.
  - destruct (boards w) as [|b r] eqn:Hb.
    + rewrite (create_tables_seeds _ Hb). reflexivity.
    + unfold create_tables. rewrite Hb. cbn. rewrite Hb. reflexivity.
Qed.

(** X16 on the empty database: the result is the sample [seeded]. *)
Lemma X16_create_tables_witness :
  create_tables empty_world = seeded /\ create_tables seeded = seeded.
Proof.
  destruct (X16_create_tables seeded) as (Hkeep & _ & _).
  split; [reflexivity|]. apply Hkeep. discriminate.
Defined.




(** ** References between the tables *)

Lemma reachable_references_live (E : Env) (w : World) :
  reachable E w -> references_live w.
Proof.
  apply (reachable_change (E := E)); clear w.
  - intros w Ht Hp. split.
    + intros p Hin. rewrite Hp in Hin. contradiction.
    + intros th Hin. rewrite Ht in Hin. contradiction.
  - intros w w' _ [IHp IHt] Hc. unfold references_live.
    destruct Hc as [Hb Ht Hp _
                   |b Hb _ _ Ht Hp _ _
                   |board th p Hb Hboard Ht _ Hbid _ _ _ _ _ Hp _ Hpt _ _ _
                   |tid th p Hb Hth _ Ht Hp _ Hpt _ _ _];
      rewrite Hb, Ht, Hp.
    + auto.
    + split; [exact IHp|]. intros t Hin.
      destruct (IHt t Hin) as [b0 [Hb0 Hid]].
      exists b0. split; [apply in_or_app; left; exact Hb0|exact Hid].
    + split.
      * intros q Hq. apply in_app_or in Hq. destruct Hq as [Hq|[<-|[]]].
        -- destruct (IHp q Hq) as [t [Hin Hid]].
           exists t. split; [apply in_or_app; left; exact Hin|exact Hid].
        -- exists th. split; [apply in_or_app; right; left; reflexivity|].
           symmetry. exact Hpt.
      * intros t Hin. apply in_app_or in Hin. destruct Hin as [Hin|[<-|[]]].
        -- apply IHt, Hin.
        -- exists board. split; [exact Hboard|symmetry; exact Hbid].
    + assert (Hkeep : forall t, In t (threads w) ->
                exists t', In t' (bump tid (utcnow E (clock_reads w))
                                    (threads w)) /\
                           Thread.id t' = Thread.id t).
      { intros t Hin. eexists. split; [unfold bump; apply in_map, Hin|].
        cbn. destruct (Thread.id t =? tid); reflexivity. }
      split.
      * intros q Hq. apply in_app_or in Hq. destruct Hq as [Hq|[<-|[]]].
        -- destruct (IHp q Hq) as [t [Hin Hid]].
           destruct (Hkeep t Hin) as [t' [Hin' Hid']].
           exists t'. split; [exact Hin'|congruence].
        -- apply thread_get_some in Hth. destruct Hth as [Hin Hid].
           destruct (Hkeep th Hin) as [t' [Hin' Hid']].
           exists t'. split; [exact Hin'|congruence].
      * intros t Hin. apply bump_In in Hin.
        destruct Hin as (t0 & Hin0 & Hfix & _).
        destruct (IHt t0 Hin0) as [b0 [Hb0 Hid]].
        exists b0. split; [exact Hb0|].
        unfold fixed_columns in Hfix. injection Hfix as _ Hbid _ _ _ _.
        congruence.
Qed.

Lemma NoDup_map_inj (A B : Type) (f : A -> B) (l : list A) :
  (forall x y, f x = f y -> x = y) -> NoDup l -> NoDup (map f l).
Proof.
  intros Hinj. induction 1 as [|x r Hx Hr IH]; cbn [map]; constructor.
  - rewrite in_map_iff. intros [y [Hy Hin]].
    apply Hinj in Hy. subst y. contradiction.
  - exact IH.
Qed.

(** X18.  The routes keep the references between the tables intact
    although nothing checks them: in every world reached from a database
    without threads and posts, every post belongs to a thread of the
    thread table, every thread to a board of the board table, and two
    posts of one thread never have the same [post_number]. *)
Theorem X18_references_stay_live (E : Env) (w : World) :
  reachable E w ->
  references_live w /\
  forall p q,
    In p (posts w) -> In q (posts w) ->
    Post.thread_id p = Post.thread_id q ->
    Post.post_number p = Post.post_number q ->
    p = q.
Proof.
  intros Hreach. split; [apply (reachable_references_live Hreach)|].
  intros p q Hp Hq Ht Hn.
  destruct (reachable_numbered Hreach) as [Hnum _].
  specialize (Hnum (Post.thread_id p)). unfold thread_numbers in Hnum.
  apply (NoDup_map_eq Post.post_number
           (posts_by_thread (Post.thread_id p) w)).
  - rewrite Hnum. unfold count_from_1.
    apply NoDup_map_inj; [|apply seq_NoDup].
    intros a b Hab. lia.
  - apply filter_In. split; [exact Hp|apply Z.eqb_refl].
  - apply filter_In. split; [exact Hq|]. apply Z.eqb_eq. congruence.
  - exact Hn.
Qed.

(** X18 on the sample history. *)
Lemma X18_references_stay_live_witness : references_live crossed.
Proof.
  exact (proj1 (@X18_references_stay_live ticking_env crossed
                  reachable_crossed)).
Defined.



(** ** The order of the posts of a thread *)

Lemma StronglySorted_snoc (A : Type) (R : A -> A -> Prop) (l : list A)
    (y : A) :
  StronglySorted R l -> (forall x, In x l -> R x y) ->
  StronglySorted R (l ++ [y]).
Proof.
  induction 1 as [|x r Hs IH Hall]; intros Hy; cbn [app].
  - repeat constructor.
  - constructor.
    + apply IH. intros z Hz. apply Hy. right. exact Hz.
    + apply Forall_app. split; [exact Hall|].
      constructor; [|constructor]. apply Hy. left. reflexivity.
Qed.

Lemma StronglySorted_filter (A : Type) (R : A -> A -> Prop)
    (f : A -> bool) (l : list A) :
  StronglySorted R l -> StronglySorted R (filter f l).
Proof.
  induction 1 as [|x r Hs IH Hall]; cbn [filter]; [constructor|].
  destruct (f x); [|exact IH].
  constructor; [exact IH|].
  rewrite Forall_forall in *. intros y Hy.
  apply filter_In in Hy. apply Hall, Hy.
Qed.

Lemma reachable_posts_in_time (E : Env) (w : World) :
  (forall i j, (i <= j)%nat -> utcnow E i <= utcnow E j) ->
  reachable E w -> posts_in_time E w.
Proof.
  intros Hmono. apply (reachable_change (E := E)); clear w.
  - intros w _ Hp. unfold posts_in_time. rewrite Hp.
    split; [constructor|intros p []].
  - intros w w' _ [IHs IHt] Hc. unfold posts_in_time.
    assert (Hadd : forall p k,
              (clock_reads w <= k)%nat ->
              Post.created_at p = utcnow E k ->
              StronglySorted
                (fun a b => Post.created_at a <= Post.created_at b)
                (posts w ++ [p]) /\
              forall q, In q (posts w ++ [p]) ->
                exists i, (i < S k)%nat /\ Post.created_at q = utcnow E i).
    { intros p k Hk Hp. split.
      - apply StronglySorted_snoc; [exact IHs|].
        intros q Hq. destruct (IHt q Hq) as [i [Hi ->]].
        rewrite Hp. apply Hmono. lia.
      - intros q Hq. apply in_app_or in Hq. destruct Hq as [Hq|[<-|[]]].
        + destruct (IHt q Hq) as [i [Hi Heq]]. exists i. split; [lia|auto].
        + exists k. split; [lia|exact Hp]. }
    destruct Hc as [_ _ Hp Hk
                   |b _ _ _ _ Hp Hk _
                   |board th p _ _ _ _ _ _ _ _ _ _ Hp _ _ _ Hc Hk
                   |tid th p _ _ _ _ Hp _ _ _ Hc Hk];
      rewrite Hp, Hk.
    + auto.
    + auto.
    + apply (Hadd p (S (S (clock_reads w)))); [lia|exact Hc].
    + apply (Hadd p (S (clock_reads w))); [lia|exact Hc].
Qed.

(** With a clock that advances at every read, the posts are in the table
    in the strict order of their [created_at]. *)
Lemma reachable_posts_apart (E : Env) (w : World) :
  (forall i j, (i < j)%nat -> utcnow E i < utcnow E j) ->
  reachable E w ->
  StronglySorted (fun a b => Post.created_at a < Post.created_at b) (posts w).
Proof.
  intros Hstrict.
  assert (Hmono : forall i j, (i <= j)%nat -> utcnow E i <= utcnow E j).
  { intros i j Hij. destruct (Nat.eq_dec i j) as [->|Hne]; [lia|].
    apply Z.lt_le_incl, Hstrict. lia. }
  revert w.
  apply (@reachable_change E
           (fun w => StronglySorted
                       (fun a b => Post.created_at a < Post.created_at b)
                       (posts w))).
  - intros w _ Hp. rewrite Hp. constructor.
  - intros w w' Hreach IH Hc.
    destruct (reachable_posts_in_time Hmono Hreach) as [_ Hpast].
    assert (Hadd : forall p k,
              (clock_reads w <= k)%nat ->
              Post.created_at p = utcnow E k ->
              StronglySorted
                (fun a b => Post.created_at a < Post.created_at b)
                (posts w ++ [p])).
    { intros p k Hk Hp. apply StronglySorted_snoc; [exact IH|].
      intros q Hq. destruct (Hpast q Hq) as [i [Hi ->]].
      rewrite Hp. apply Hstrict. lia. }
    destruct Hc as [_ _ Hp _
                   |b _ _ _ _ Hp _ _
                   |board th p _ _ _ _ _ _ _ _ _ _ Hp _ _ _ Hc _
                   |tid th p _ _ _ _ Hp _ _ _ Hc _];
      rewrite Hp.
    + exact IH.
    + exact IH.
    + apply (Hadd p (S (S (clock_reads w)))); [lia|exact Hc].
    + apply (Hadd p (S (clock_reads w))); [lia|exact Hc].
Qed.

Lemma StronglySorted_lt_NoDup (A : Type) (f : A -> Z) (l : list A) :
  StronglySorted (fun a b => f a < f b) l -> NoDup (map f l).
Proof.
  induction 1 as [|x r Hs IH Hall]; cbn [map]; constructor.
  - rewrite in_map_iff. intros [y [Hy Hin]].
    rewrite Forall_forall in Hall. specialize (Hall y Hin). lia.
  - exact IH.
Qed.

(** X20.  With a clock that advances at every read, the page of a thread
    shows its posts in the order in which they were added, which is the
    order of their numbers: in a reachable world no two posts of a thread
    were created at the same time, so that the posts have one listing in
    ascending order of [created_at]; it is the one that [thread_view]
    renders, and its posts are numbered 1, 2, ..., n from top to bottom, so
    the first post of the page is the opening post. *)
Theorem X20_thread_page_in_number_order (E : Env) (board_name : string)
    (tid : Z) (w w' : World) (page : ThreadPage.t) :
  (forall i j, (i < j)%nat -> utcnow E i < utcnow E j) ->
  reachable E w ->
  thread_view board_name tid w = (Value page, w') ->
  ThreadPage.posts page = posts_by_thread tid w /\
  NoDup (map Post.created_at (posts_by_thread tid w)) /\
  (forall l,
     Permutation l (posts_by_thread tid w) ->
     StronglySorted (fun a b => Post.created_at a <= Post.created_at b) l ->
     l = ThreadPage.posts page) /\
  map Post.post_number (ThreadPage.posts page) =
    count_from_1 (List.length (ThreadPage.posts page)) /\
  option_map Post.post_number (first (ThreadPage.posts page)) = Some 1.
Proof.
  intros Hstrict Hreach Hview.
  assert (Hapart : StronglySorted
            (fun a b => Post.created_at a < Post.created_at b)
            (posts_by_thread tid w)).
  { unfold posts_by_thread. apply StronglySorted_filter.
    apply (reachable_posts_apart Hstrict Hreach). }
  assert (Hnd : NoDup (map Post.created_at (posts_by_thread tid w)))
    by apply StronglySorted_lt_NoDup, Hapart.
  assert (Hpage : ThreadPage.posts page =
                  order_by post_created_asc (posts_by_thread tid w)).
  { revert Hview.
    unfold thread_view, board_or_404, bind, ret, leave, get_world.
    destruct (first (boards_by_name board_name w)); [|discriminate].
    destruct (first (threads_by_id_and_board _ _ w)); [|discriminate].
    destruct (order_by _ _) as [|p ps] eqn:Hsorted; [discriminate|].
    intros [= <- _]. reflexivity. }
  assert (Hsame : ThreadPage.posts page = posts_by_thread tid w).
  { rewrite Hpage. symmetry.
    apply posts_by_created_determined;
      [exact Hnd|apply Permutation_refl|].
    eapply StronglySorted_weaken; [|exact Hapart].
    intros a b Hab. cbn beta in Hab. lia. }
  destruct (reachable_numbered Hreach) as [Hnum _].
  specialize (Hnum tid). unfold thread_numbers in Hnum.
  split; [exact Hsame|]. split; [exact Hnd|]. split.
  { intros l Hp Hs. rewrite Hpage.
    apply posts_by_created_determined; assumption. }
  rewrite Hsame. split; [exact Hnum|].
  pose proof (thread_view_page_nonempty _ _ _ Hview) as Hne.
  rewrite Hsame in Hne.
  destruct (posts_by_thread tid w) as [|p ps]; [contradiction|].
  cbn [List.length] in Hnum. unfold count_from_1 in Hnum.
  cbn [seq map] in Hnum. injection Hnum as Hp _.
  cbn. rewrite Hp. reflexivity.
Qed.

(** X20 on the sample history, under the clock that advances by one unit
    per read. *)
Lemma X20_thread_page_in_number_order_witness :
  exists page,
    thread_view "b" 1 crossed = (Value page, crossed) /\
    map Post.post_number (ThreadPage.posts page) = [1; 2].
Proof.
  assert (Hstrict : forall i j, (i < j)%nat ->
            utcnow ticking_env i < utcnow ticking_env j)
    by (intros i j Hij; unfold ticking_env; cbn [utcnow]; lia).
  eexists. split; [reflexivity|].
  exact (proj1 (proj2 (proj2 (proj2
           (@X20_thread_page_in_number_order ticking_env "b" 1
              crossed _ _ Hstrict reachable_crossed eq_refl))))).
Defined.

(** ** The rows of an accepted post *)

(** X21.  What an accepted post stores.  The post row carries the email,
    subject and comment of the form as they were sent (empty when missing)
    and never a width, a height or a thumbnail.  When the post starts a
    thread, the thread belongs to the board of the route and its subject is
    the subject of the form, or "No Subject" when that is empty, while the
    subject of the post stays empty. *)
Theorem X21_accepted_post_rows (E : Env) (board_name : string)
    (form : PostForm.t) (w w' : World) (t : Z) :
  run (create_post E board_name form) w =
    (Redirect None (thread_view_url board_name t), w') ->
  exists p,
    posts w' = posts w ++ [p] /\
    Post.email p = form_get (PostForm.email form) "" /\
    Post.subject p = form_get (PostForm.subject form) "" /\
    Post.comment p = form_get (PostForm.comment form) "" /\
    Post.image_width p = None /\ Post.image_height p = None /\
    Post.thumbnail p = None /\
    (PostForm.thread_id form = None ->
     exists board th,
       first (boards_by_name board_name w) = Some board /\
       threads w' = threads w ++ [th] /\
       Thread.board_id th = Board.id board /\
       Thread.subject th <> "" /\
       (form_get (PostForm.subject form) "" = "" ->
        Thread.subject th = "No Subject" /\ Post.subject p = "") /\
       (form_get (PostForm.subject form) "" <> "" ->
        Thread.subject th = form_get (PostForm.subject form) "")).
Proof.
  assert (Hsubject : forall s,
            Py.or_else s "No Subject" <> "" /\
            (s = "" -> Py.or_else s "No Subject" = "No Subject") /\
            (s <> "" -> Py.or_else s "No Subject" = s)).
  { intros s. unfold Py.or_else, Py.truthy.
    destruct (String.eqb_spec s ""); cbn [negb].
    - repeat split; [discriminate|contradiction].
    - repeat split; [assumption|contradiction]. }
  unfold_handlers.
  destruct (first (boards_by_name board_name w)) as [board|];
    [|discriminate].
  upload_cases form ltac:(discriminate);
    (destruct (PostForm.thread_id form) as [tid|]; cbn beta iota;
     [ lookup_in w tid;
       destruct (thread_get tid w) as [th|]; cbn beta iota; [|discriminate];
       destruct (Thread.is_locked th); url_cases form; try discriminate;
       intros [= <- <-]; cbn;
       eexists; repeat split; discriminate
     | destruct (negb _ && negb _ && negb _); cbn beta iota;
       [discriminate|];
       intros [= <- <-]; cbn;
       eexists; repeat split;
       intros _; eexists board, _;
       (split; [reflexivity|]); (split; [reflexivity|]);
       (split; [reflexivity|]);
       cbn [Thread.subject];
       destruct (Hsubject (form_get (PostForm.subject form) ""))
         as (Hne & Hdef & Hkeep);
       repeat split; auto ]).
Qed.

(** X21 on the sample: the first post "hello" has no subject. *)
Lemma X21_accepted_post_rows_witness :
  map Thread.subject (threads one_thread) = ["No Subject"] /\
  map Post.subject (posts one_thread) = [""].
Proof.
  destruct (@X21_accepted_post_rows ticking_env "b" (text_form "hello" None)
              seeded one_thread 1 eq_refl)
    as (p & Hp & _ & _ & _ & _ & _ & _ & Hthread).
  destruct (Hthread eq_refl) as (board & th & _ & Ht & _ & _ & Hdef & _).
  destruct (Hdef eq_refl) as [Hsub Hpsub].
  rewrite Ht, Hp. cbn. rewrite Hsub, Hpsub. split; reflexivity.
Defined.
